(** * Sabre: the analysis controller (lib/controllers/analyze.js)

    The controller is one asynchronous function that drives the
    collaborators [fs], [compiler], [Profiler], [client] and [report]
    through a fixed pipeline, printing through [console.log] and the [ora]
    spinner and leaving through [process.exit].  It is embedded here as a
    program in a small trace monad: every collaborator call, console line
    and spinner action is recorded in program order, and the three ways
    control can leave a statement (normally, by a thrown value, by
    [process.exit]) are explicit.

    The collaborators live in other modules.  They enter as a record of
    functions, one per call the controller makes, each answering with a
    value or a thrown error; the controller calls each of them at most
    once in a run, so a function of the arguments covers whatever a
    collaborator does.  An [await] suspends the controller until the
    promise settles, so a call and its outcome are one event. *)

From Stdlib Require Import String List ZArith Bool.
Import ListNotations.
Local Open Scope string_scope.
Local Open Scope Z_scope.

(** ** JavaScript values the controller looks into *)

(** A thrown value.  [InvalidArgType] is the [TypeError] Node's [path]
    module throws for an argument that is not a string; [Raised] is
    whatever a collaborator throws or rejects with. *)
Inductive error :=
| InvalidArgType (arg : string)
| Raised (reason : string).

(** What a collaborator call does: return (or resolve) or throw (or reject). *)
Inductive result (A : Type) :=
| Ok (a : A)
| Err (e : error).
Arguments Ok {A} a.
Arguments Err {A} e.

(** A plain object used as a map, keys in insertion order (the keys here
    are file paths). *)
Definition JSObject (V : Type) := list (string * V).

(** [Object.keys(o)] *)
Definition keys {V} (o : JSObject V) : list string := map fst o.

(** [o[k]] for the own properties of [o]: [None] when [o] has no own
    property [k].  The prototype chain is not followed; the controller
    reads only at keys it took from [Object.keys]. *)
Fixpoint lookup {V} (o : JSObject V) (k : string) : option V :=
  match o with
  | [] => None
  | (k', v) :: o' => if String.eqb k' k then Some v else lookup o' k
  end.

(** [o[k] = v] *)
Fixpoint assign {V} (o : JSObject V) (k : string) (v : V) : JSObject V :=
  match o with
  | [] => [(k, v)]
  | (k', v') :: o' =>
      if String.eqb k' k then (k', v) :: o' else (k', v') :: assign o' k v
  end.

(** [arr.includes(x)] on an array of strings *)
Definition includes (arr : list string) (x : string) : bool :=
  existsb (String.eqb x) arr.

(** [arr.join(sep)] *)
Definition join (sep : string) (arr : list string) : string :=
  String.concat sep arr.

(** Truthiness of a value that is a string or [undefined]. *)
Definition truthy (v : option string) : bool :=
  match v with
  | Some s => negb (String.eqb s "")
  | None => false
  end.

(** [env] : the three settings read from the environment. *)
Record Env := {
  ethAddress : option string;
  password : option string;
  apiUrl : option string
}.

(** [args] : the parsed command line; [positional] is [args._]. *)
Record Args := {
  mode : string;
  format : string;
  positional : list string;
  debug : bool
}.

(** The options object handed to [new Resolver(...)]. *)
Record Resolver := {
  working_directory : string;
  contracts_build_directory : string
}.

(** An entry of [resolvedSources]; only [body] is read. *)
Record ResolvedSource := { body : string }.

(** An entry of [allSources] : [{ content: ... }]. *)
Record SourceContent := { content : string }.

Definition modes : list string := ["quick"; "full"].

Definition formats : list string :=
  ["text"; "stylish"; "compact"; "table"; "html"; "json"].

Definition trial_address : string :=
  "0x0000000000000000000000000000000000000000".

Definition trial_password : string := "trial".

(** Lines 35-38: both credentials are replaced unless both are truthy. *)
Definition credentials (env : Env) : option string * option string :=
  if negb (truthy (ethAddress env) && truthy (password env))
  then (Some trial_address, Some trial_password)
  else (ethAddress env, password env).

(** Lines 148-157: initial delay and timeout of the poll loop, in ms. *)
Definition poll_parameters (args : Args) : Z * Z :=
  if String.eqb (mode args) "quick"
  then (20 * 1000, 180 * 1000)
  else (300 * 1000, 2400 * 1000).

(** Lines 93-97: [allSources], filled by the [forEach] over [sourceList]. *)
Definition allSources_of (resolvedSources : JSObject ResolvedSource)
    (sourceList : list string) : JSObject SourceContent :=
  fold_left
    (fun acc file =>
       match lookup resolvedSources file with
       | Some src => assign acc file {| content := body src |}
       | None => acc
       end)
    sourceList [].

(** [args] with its [debug] property set to [b], all else unchanged. *)
Definition with_debug (args : Args) (b : bool) : Args :=
  {| mode := mode args;
     format := format args;
     positional := positional args;
     debug := b |}.

(** [l1] is [l2] with some elements left out. *)
Inductive subsequence {A : Type} : list A -> list A -> Prop :=
| sub_nil : forall l, subsequence [] l
| sub_take : forall x l1 l2, subsequence l1 l2 -> subsequence (x :: l1) (x :: l2)
| sub_skip : forall x l1 l2, subsequence l1 l2 -> subsequence l1 (x :: l2).

(** ** The texts the controller prints or hands to the spinner *)

Module Text.

Definition invalid_mode : string :=
  "Invalid analysis mode. Available modes: " ++ join ", " modes ++ ".".

Definition invalid_format : string :=
  "Invalid output format. Available formats: " ++ join ", " formats ++ ".".

Definition reading_input : string := "Reading input file".

Definition detecting_version : string := "Detecting solidity version".

Definition loading_solc (version : string) : string :=
  "Loading solc v" ++ version.

Definition loaded_solc (fromCache : bool) (version : string) : string :=
  if fromCache
  then "Loaded solc v" ++ version ++ " from local cache"
  else "Downloaded solc v" ++ version ++ " and saved to local cache".

Definition resolving_imports : string := "Resolving imports".

Definition compiling (sourceList : list string) : string :=
  if (length sourceList =? 1)%nat
  then "Compiling source" else "Compiling sources".

Definition compiled (version : string) : string :=
  "Compiled with solc v" ++ version ++ " successfully".

Definition authenticating : string := "Authenticating user".

Definition submitting : string := "Submitting data for analysis".

Definition rule : string := "-------------------".

Definition request_body : string := "MythX Request Body:
".

Definition response_body : string := "MythX Response Body:
".

Definition job_in_progress (uuid : string) : string :=
  "Analysis job with UUID " ++ uuid ++ " is now in progress".

Definition analyzing (contractName : string) : string :=
  "Analyzing " ++ contractName.

Definition retrieving : string := "Retrieving analysis results".

Definition rendering : string := "Rendering output".

(** [file] is [args._[0]], which is a string wherever this is printed. *)
Definition no_issues (file contractName : string) : string :=
  "✔ No errors/warnings found in " ++ file
    ++ " for contract: " ++ contractName.

End Text.

Arguments Text.invalid_mode : simpl never.
Arguments Text.invalid_format : simpl never.
Arguments Text.reading_input : simpl never.
Arguments Text.detecting_version : simpl never.
Arguments Text.loading_solc : simpl never.
Arguments Text.loaded_solc : simpl never.
Arguments Text.resolving_imports : simpl never.
Arguments Text.compiling : simpl never.
Arguments Text.compiled : simpl never.
Arguments Text.authenticating : simpl never.
Arguments Text.submitting : simpl never.
Arguments Text.rule : simpl never.
Arguments Text.request_body : simpl never.
Arguments Text.response_body : simpl never.
Arguments Text.job_in_progress : simpl never.
Arguments Text.analyzing : simpl never.
Arguments Text.retrieving : simpl never.
Arguments Text.rendering : simpl never.
Arguments Text.no_issues : simpl never.

(** How control leaves a statement. *)
Inductive completion (A : Type) :=
| Normal (a : A)
| Throw (e : error)
| Exit (code : Z).
Arguments Normal {A} a.
Arguments Throw {A} e.
Arguments Exit {A} code.

(** How the process sees the call end. *)
Inductive outcome :=
| Resolved                 (* the async function returned *)
| Rejected (e : error)     (* it threw outside the [try] *)
| Exited (code : Z).       (* [process.exit(code)] *)

(** What the controller asks of the [ora] spinner. *)
Inductive spinner_action :=
| Start (text : option string)
| Stop
| Succeed (text : string)
| Fail.

Set Implicit Arguments.

Section Controller.

(** Values the controller only passes along: release descriptors, compiler
    snapshots, client handles, hash tables, request and response bodies. *)
Variable Opaque : Type.

Definition Release := Opaque.
Definition Snapshot := Opaque.
Definition MxClient := Opaque.
Definition Issues := Opaque.
Definition Issue := Opaque.

(** [input] of [compiler.getSolcInput]; only [sources] is read. *)
Record SolcInput := {
  sources : JSObject SourceContent;
  settings : Opaque
}.

(** [compiledData]; [contractName] and [functionHashes] are read. *)
Record CompiledData := {
  contractName : string;
  functionHashes : Opaque;
  artifact : Opaque
}.

(** [data] of [client.getRequestData]; the controller later assigns its
    [sources] and [functionHashes] properties. *)
Record RequestData := {
  payload : Opaque;
  data_sources : option (JSObject SourceContent);
  data_functionHashes : option Opaque
}.

(** ** The collaborators

    None of them is part of the controller: each is taken as given, with
    the arguments the controller passes it. *)
Record World := {
  cwd : string;                                   (* process.cwd() *)
  path_resolve : string -> string -> string;      (* path.resolve *)
  path_dirname : string -> string;                (* path.dirname *)
  spinner_enabled : bool;                         (* ora draws only on a terminal *)
  releases : string -> option Release;            (* releases[version] *)
  readFileSync : string -> result string;
  getSolidityVersion : string -> result string;
  loadSolcVersion : option Release -> result (Snapshot * bool);
  resolveAllSources :
    Resolver -> list string -> Snapshot -> result (JSObject ResolvedSource);
  getSolcInput : JSObject SourceContent -> result SolcInput;
  getCompiledContracts :
    SolcInput -> Snapshot -> string -> option string -> result CompiledData;
  initialize :
    option string -> option string -> option string -> result MxClient;
  authenticate : MxClient -> result unit;
  getRequestData :
    CompiledData -> list string -> string -> Args -> result RequestData;
  submitDataForAnalysis : MxClient -> RequestData -> result string;
  awaitAnalysisFinish : MxClient -> string -> Z -> Z -> result unit;
  getReport : MxClient -> string -> result Issues;
  formatIssues : RequestData -> Issues -> result (list Issue);
  getFormatter : string -> result (list Issue -> result string)
}.

(** ** Observable events *)

Inductive call :=
| ReadFileSync (file : string)
| GetSolidityVersion (code : string)
| LoadSolcVersion (release : option Release)
| ResolveAllSources (r : Resolver) (files : list string) (snap : Snapshot)
| GetSolcInput (srcs : JSObject SourceContent)
| GetCompiledContracts
    (input : SolcInput) (snap : Snapshot) (file : string) (name : option string)
| Initialize (url addr pw : option string)
| Authenticate (c : MxClient)
| GetRequestData
    (cd : CompiledData) (sourceList : list string) (file : string) (a : Args)
| SubmitDataForAnalysis (c : MxClient) (data : RequestData)
| AwaitAnalysisFinish (c : MxClient) (uuid : string) (initialDelay timeout : Z)
| GetReport (c : MxClient) (uuid : string)
| FormatIssues (data : RequestData) (issues : Issues)
| GetFormatter (name : string)
| Formatter (uniqueIssues : list Issue).

(** What is handed to [console.log], by the place that prints it. *)
Inductive message :=
| Line (s : string)                 (* a literal line *)
| InspectData (d : RequestData)     (* util.inspect(data, ...), line 133 *)
| InspectIssues (i : Issues)        (* util.inspect(issues, ...), line 187 *)
| Green (s : string)                (* chalk.green(...), line 198 *)
| Output (s : string)               (* the formatter's block, line 205 *)
| Red (e : error).                  (* chalk.red(err), line 212 *)

(** [Called c None] : the call returned; [Called c (Some e)] : it threw [e]. *)
Inductive event :=
| Spinner (a : spinner_action)
| ConsoleLog (m : message)
| Called (c : call) (thrown : option error).

(** ** The trace monad *)

(** What is threaded through the statements: the events so far, most
    recent first, and [spinner.isSpinning]. *)
Record state := {
  log : list event;
  spinning : bool
}.

Definition M (A : Type) : Type := state -> state * completion A.

Definition ret {A} (a : A) : M A := fun s => (s, Normal a).

Definition bind {A B} (m : M A) (k : A -> M B) : M B :=
  fun s =>
    match m s with
    | (s1, Normal a) => k a s1
    | (s1, Throw e) => (s1, Throw e)
    | (s1, Exit z) => (s1, Exit z)
    end.

Notation "x <- m ;; k" := (bind m (fun x => k))
  (at level 61, m at next level, right associativity).
Notation "m ;;; k" := (bind m (fun _ => k))
  (at level 61, right associativity).

(** [try { m } catch (err) { h err }] : [process.exit] is not catchable. *)
Definition try_catch {A} (m : M A) (h : error -> M A) : M A :=
  fun s =>
    match m s with
    | (s1, Throw e) => h e s1
    | other => other
    end.

Definition throw {A} (e : error) : M A := fun s => (s, Throw e).

Definition process_exit {A} (code : Z) : M A := fun s => (s, Exit code).

Definition emit (e : event) (s : state) : state :=
  {| log := e :: log s; spinning := spinning s |}.

Definition console_log (m : message) : M unit :=
  fun s => (emit (ConsoleLog m) s, Normal tt).

Definition isSpinning : M bool := fun s => (s, Normal (spinning s)).

Section Run.

Variable w : World.

(** [ora]: [start] sets the spinner going only when it is enabled;
    [stop], [succeed] and [fail] end it. *)
Definition spinner_start (text : option string) : M unit :=
  fun s =>
    ({| log := Spinner (Start text) :: log s;
        spinning := spinning s || spinner_enabled w |}, Normal tt).

Definition spinner_end (a : spinner_action) : M unit :=
  fun s => ({| log := Spinner a :: log s; spinning := false |}, Normal tt).

Definition spinner_stop : M unit := spinner_end Stop.

Definition spinner_succeed (text : string) : M unit :=
  spinner_end (Succeed text).

Definition spinner_fail : M unit := spinner_end Fail.

(** A collaborator call: recorded with its outcome, then returns or throws. *)
Definition invoke {A} (c : call) (r : result A) : M A :=
  fun s =>
    match r with
    | Ok a => (emit (Called c None) s, Normal a)
    | Err e => (emit (Called c (Some e)) s, Throw e)
    end.

(** [path.resolve(process.cwd(), args._[0])] *)
Definition resolve_input (args : Args) : M string :=
  match nth_error (positional args) 0 with
  | Some file => ret (path_resolve w (cwd w) file)
  | None => throw (InvalidArgType "path")
  end.

(** ** [module.exports = async (env, args) => { ... }] *)
Definition analyze (env : Env) (args : Args) : M unit :=
  (if negb (includes modes (mode args)) then
     console_log (Line Text.invalid_mode) ;;;
     process_exit (-1)
   else ret tt) ;;;
  (if negb (includes formats (format args)) then
     console_log (Line Text.invalid_format) ;;;
     process_exit (-1)
   else ret tt) ;;;
  solidityFilePath <- resolve_input args ;;
  let solidityFileDir := path_dirname w solidityFilePath in
  let '(ethAddress, password) := credentials env in
  let resolver :=
    {| working_directory := solidityFileDir;
       contracts_build_directory := solidityFileDir |} in
  try_catch
    (spinner_start (Some Text.reading_input) ;;;
     solidityCode <-
       invoke (ReadFileSync solidityFilePath)
         (readFileSync w solidityFilePath) ;;
     spinner_stop ;;;
     spinner_start (Some Text.detecting_version) ;;;
     version <-
       invoke (GetSolidityVersion solidityCode)
         (getSolidityVersion w solidityCode) ;;
     spinner_stop ;;;
     spinner_start (Some (Text.loading_solc version)) ;;;
     loaded <-
       invoke (LoadSolcVersion (releases w version))
         (loadSolcVersion w (releases w version)) ;;
     let '(solcSnapshot, fromCache) := loaded in
     spinner_succeed (Text.loaded_solc fromCache version) ;;;
     spinner_start (Some Text.resolving_imports) ;;;
     resolvedSources <-
       invoke (ResolveAllSources resolver [solidityFilePath] solcSnapshot)
         (resolveAllSources w resolver [solidityFilePath] solcSnapshot) ;;
     let sourceList := keys resolvedSources in
     spinner_stop ;;;
     spinner_start (Some (Text.compiling sourceList)) ;;;
     let allSources := allSources_of resolvedSources sourceList in
     input <- invoke (GetSolcInput allSources) (getSolcInput w allSources) ;;
     compiledData <-
       invoke
         (GetCompiledContracts input solcSnapshot solidityFilePath
            (nth_error (positional args) 1))
         (getCompiledContracts w input solcSnapshot solidityFilePath
            (nth_error (positional args) 1)) ;;
     spinner_succeed (Text.compiled version) ;;;
     spinner_start (Some Text.authenticating) ;;;
     mxClient <-
       invoke (Initialize (apiUrl env) ethAddress password)
         (initialize w (apiUrl env) ethAddress password) ;;
     invoke (Authenticate mxClient) (authenticate w mxClient) ;;;
     spinner_stop ;;;
     spinner_start (Some Text.submitting) ;;;
     data <-
       invoke (GetRequestData compiledData sourceList solidityFilePath args)
         (getRequestData w compiledData sourceList solidityFilePath args) ;;
     (if debug args then
        spinner_stop ;;;
        console_log (Line Text.rule) ;;;
        console_log (Line Text.request_body) ;;;
        console_log (InspectData data) ;;;
        spinner_start None
      else ret tt) ;;;
     uuid <-
       invoke (SubmitDataForAnalysis mxClient data)
         (submitDataForAnalysis w mxClient data) ;;
     spinner_succeed (Text.job_in_progress uuid) ;;;
     spinner_start (Some (Text.analyzing (contractName compiledData))) ;;;
     let '(initialDelay, timeout) := poll_parameters args in
     invoke (AwaitAnalysisFinish mxClient uuid initialDelay timeout)
       (awaitAnalysisFinish w mxClient uuid initialDelay timeout) ;;;
     spinner_stop ;;;
     spinner_start (Some Text.retrieving) ;;;
     issues <- invoke (GetReport mxClient uuid) (getReport w mxClient uuid) ;;
     spinner_stop ;;;
     spinner_start (Some Text.rendering) ;;;
     let data :=
       {| payload := payload data;
          data_sources := Some (sources input);
          data_functionHashes := Some (functionHashes compiledData) |} in
     (if debug args then
        spinner_stop ;;;
        console_log (Line Text.rule) ;;;
        console_log (Line Text.response_body) ;;;
        console_log (InspectIssues issues) ;;;
        console_log (Line Text.rule) ;;;
        spinner_start None
      else ret tt) ;;;
     uniqueIssues <-
       invoke (FormatIssues data issues) (formatIssues w data issues) ;;
     if (length uniqueIssues =? 0)%nat then
       spinner_stop ;;;
       console_log
         (Green (Text.no_issues (nth 0 (positional args) "undefined")
                   (contractName compiledData)))
     else
       formatter <-
         invoke (GetFormatter (format args)) (getFormatter w (format args)) ;;
       output <- invoke (Formatter uniqueIssues) (formatter uniqueIssues) ;;
       spinner_stop ;;;
       console_log (Output output))
    (fun err =>
       spinning <- isSpinning ;;
       (if spinning : bool then spinner_fail else ret tt) ;;;
       console_log (Red err) ;;;
       process_exit 1).

Definition run (env : Env) (args : Args) : list event * outcome :=
  match analyze env args {| log := []; spinning := false |} with
  | (s, Normal _) => (rev (log s), Resolved)
  | (s, Throw e) => (rev (log s), Rejected e)
  | (s, Exit z) => (rev (log s), Exited z)
  end.

End Run.

End Controller.

Unset Implicit Arguments.

(** The constructors whose arguments do not show the type of opaque
    values take it implicitly all the same. *)
Arguments ReadFileSync {Opaque} file.
Arguments GetSolidityVersion {Opaque} code.
Arguments GetSolcInput {Opaque} srcs.
Arguments Initialize {Opaque} url addr pw.
Arguments GetFormatter {Opaque} name.
Arguments Line {Opaque} s.
Arguments Green {Opaque} s.
Arguments Output {Opaque} s.
Arguments Red {Opaque} e.
Arguments Spinner {Opaque} a.

(** ** Reading a trace *)

(** The stages of the pipeline, in the order of the design. *)
Inductive stage :=
| VersionDetection
| ToolchainAcquisition
| ImportResolution
| Compilation
| Authentication
| Submission
| Polling
| ResultRetrieval
| Rendering.

Definition pipeline : list stage :=
  [VersionDetection; ToolchainAcquisition; ImportResolution; Compilation;
   Authentication; Submission; Polling; ResultRetrieval; Rendering].

Definition stage_index (s : stage) : nat :=
  match s with
  | VersionDetection => 0
  | ToolchainAcquisition => 1
  | ImportResolution => 2
  | Compilation => 3
  | Authentication => 4
  | Submission => 5
  | Polling => 6
  | ResultRetrieval => 7
  | Rendering => 8
  end.

(** Drop the adjacent repeats of a stage. *)
Fixpoint squash (l : list stage) : list stage :=
  match l with
  | [] => []
  | a :: l' =>
      match l' with
      | b :: _ =>
          if (stage_index a =? stage_index b)%nat
          then squash l' else a :: squash l'
      | [] => [a]
      end
  end.

Set Implicit Arguments.

Section Observers.

Variable Opaque : Type.

(** The toolchain cache is reached through [compiler.loadSolcVersion]. *)
Definition loads_toolchain (c : call Opaque) : bool :=
  match c with
  | LoadSolcVersion _ => true
  | _ => false
  end.

(** The calls of [client] that talk to the remote service. *)
Definition remote_service (c : call Opaque) : bool :=
  match c with
  | Authenticate _
  | SubmitDataForAnalysis _ _
  | AwaitAnalysisFinish _ _ _ _
  | GetReport _ _ => true
  | _ => false
  end.

(** The collaborator calls of a trace, in order, with their outcomes. *)
Fixpoint calls (t : list (event Opaque)) : list (call Opaque * option error) :=
  match t with
  | [] => []
  | Called c r :: t' => (c, r) :: calls t'
  | _ :: t' => calls t'
  end.

(** What a trace prints through [console.log], in order. *)
Fixpoint printed (t : list (event Opaque)) : list (message Opaque) :=
  match t with
  | [] => []
  | ConsoleLog m :: t' => m :: printed t'
  | _ :: t' => printed t'
  end.

(** No collaborator is called at all. *)
Definition no_calls (t : list (event Opaque)) : Prop :=
  forall c r, ~ In (Called c r) t.

(** Every call that is followed by another call returned normally. *)
Fixpoint calls_chain (t : list (event Opaque)) : Prop :=
  match t with
  | [] => True
  | Called c r :: t' => (r = None \/ no_calls t') /\ calls_chain t'
  | _ :: t' => calls_chain t'
  end.

(** Every [client.getReport] comes after a [client.awaitAnalysisFinish]
    that resolved for the same client and job; [polled] collects them. *)
Fixpoint report_after_poll (polled : list (MxClient Opaque * string))
    (t : list (event Opaque)) : Prop :=
  match t with
  | [] => True
  | Called (AwaitAnalysisFinish c uuid _ _) None :: t' =>
      report_after_poll ((c, uuid) :: polled) t'
  | Called (GetReport c uuid) _ :: t' =>
      In (c, uuid) polled /\ report_after_poll polled t'
  | _ :: t' => report_after_poll polled t'
  end.

(** The collaborator function a call goes to. *)
Definition operation (c : call Opaque) : nat :=
  match c with
  | ReadFileSync _ => 0
  | GetSolidityVersion _ => 1
  | LoadSolcVersion _ => 2
  | ResolveAllSources _ _ _ => 3
  | GetSolcInput _ => 4
  | GetCompiledContracts _ _ _ _ => 5
  | Initialize _ _ _ => 6
  | Authenticate _ => 7
  | GetRequestData _ _ _ _ => 8
  | SubmitDataForAnalysis _ _ => 9
  | AwaitAnalysisFinish _ _ _ _ => 10
  | GetReport _ _ => 11
  | FormatIssues _ _ => 12
  | GetFormatter _ => 13
  | Formatter _ => 14
  end%nat.

Definition same_operation (c c' : call Opaque) : bool :=
  (operation c =? operation c')%nat.

(** The stage a call belongs to; reading the input file precedes them. *)
Definition stage_of (c : call Opaque) : option stage :=
  match c with
  | ReadFileSync _ => None
  | GetSolidityVersion _ => Some VersionDetection
  | LoadSolcVersion _ => Some ToolchainAcquisition
  | ResolveAllSources _ _ _ => Some ImportResolution
  | GetSolcInput _ | GetCompiledContracts _ _ _ _ => Some Compilation
  | Initialize _ _ _ | Authenticate _ => Some Authentication
  | GetRequestData _ _ _ _ | SubmitDataForAnalysis _ _ => Some Submission
  | AwaitAnalysisFinish _ _ _ _ => Some Polling
  | GetReport _ _ => Some ResultRetrieval
  | FormatIssues _ _ | GetFormatter _ | Formatter _ => Some Rendering
  end.

Fixpoint stage_sequence (t : list (event Opaque)) : list stage :=
  match t with
  | [] => []
  | Called c _ :: t' =>
      match stage_of c with
      | Some s => s :: stage_sequence t'
      | None => stage_sequence t'
      end
  | _ :: t' => stage_sequence t'
  end.

(** The stages a run entered, in the order it entered them. *)
Definition stages_entered (t : list (event Opaque)) : list stage :=
  squash (stage_sequence t).

(** The calls that select or apply a formatter. *)
Definition formatter_call (c : call Opaque) : bool :=
  match c with
  | GetFormatter _ | Formatter _ => true
  | _ => false
  end.

(** The lines that carry the result of the analysis: the success line
    and the formatter's block. *)
Definition result_line (m : message Opaque) : bool :=
  match m with
  | Green _ | Output _ => true
  | _ => false
  end.

Definition results (t : list (event Opaque)) : list (message Opaque) :=
  filter result_line (printed t).

(** Cut a trace at its first throwing call. *)
Fixpoint first_throw (t : list (event Opaque)) :
    option (list (event Opaque) * call Opaque * error * list (event Opaque)) :=
  match t with
  | [] => None
  | Called c (Some e) :: t' => Some ([], c, e, t')
  | ev :: t' =>
      match first_throw t' with
      | Some (pre, c, e, post) => Some (ev :: pre, c, e, post)
      | None => None
      end
  end.

(** A call with the [debug] property of the [args] it carries reset. *)
Definition forget_debug (c : call Opaque) : call Opaque :=
  match c with
  | GetRequestData cd sourceList file a =>
      GetRequestData cd sourceList file (with_debug a false)
  | _ => c
  end.

Definition forget_debug_event (ev : event Opaque) : event Opaque :=
  match ev with
  | Called c r => Called (forget_debug c) r
  | _ => ev
  end.

(** The work a run did: its calls, with their arguments and outcomes, up
    to the [debug] property of [args]. *)
Definition work (t : list (event Opaque)) : list (call Opaque * option error) :=
  map (fun cr => (forget_debug (fst cr), snd cr)) (calls t).

(** Modelled from the spec: [client.getRequestData] is not under src/;
    the spec has the submission package the compiled artifact, the source
    list and the requested depth ([quick] or [full]), so the request data
    does not depend on the [debug] property of the [args] it is handed. *)
Definition request_ignores_debug (w : World Opaque) : Prop :=
  forall cd sourceList file a b,
    getRequestData w cd sourceList file (with_debug a b) =
    getRequestData w cd sourceList file a.

End Observers.

Unset Implicit Arguments.

Arguments forget_debug_event {Opaque} ev.

(** ** A concrete set of collaborators

    Opaque values are strings here.  [Demo.world] answers every call; the
    version detection, the poll loop, the request data and the list of
    unique issues are left to choose. *)

Module Demo.

Definition world (version : result string) (poll : result unit)
    (request : Args -> string) (found : result (list string)) :
    World string :=
  {| cwd := "/work";
     path_resolve := fun dir file => dir ++ "/" ++ file;
     path_dirname := fun _ => "/work";
     spinner_enabled := true;
     releases := fun version => Some ("soljson-v" ++ version);
     readFileSync := fun _ => Ok "pragma solidity ^0.5.0; contract Token {}";
     getSolidityVersion := fun _ => version;
     loadSolcVersion := fun _ => Ok ("snapshot", true);
     resolveAllSources :=
       fun _ files _ =>
         Ok (map (fun file => (file, {| body := "contract Token {}" |})) files);
     getSolcInput := fun srcs => Ok {| sources := srcs; settings := "{}" |};
     getCompiledContracts :=
       fun _ _ _ _ =>
         Ok {| contractName := "Token";
               functionHashes := "{}";
               artifact := "0x6080" |};
     initialize := fun _ _ _ => Ok "client";
     authenticate := fun _ => Ok tt;
     getRequestData :=
       fun _ _ _ a =>
         Ok {| payload := request a;
               data_sources := None;
               data_functionHashes := None |};
     submitDataForAnalysis := fun _ _ => Ok "job-1";
     awaitAnalysisFinish := fun _ _ _ _ => poll;
     getReport := fun _ _ => Ok "[SWC-101, SWC-101]";
     formatIssues := fun _ _ => found;
     getFormatter := fun name => Ok (fun issues => Ok (join ";" issues)) |}.

(** Everything succeeds and nothing is found. *)
Definition clean : World string :=
  world (Ok "0.5.0") (Ok tt) mode (Ok []).

(** Everything succeeds and one issue is left after deduplication. *)
Definition finding : World string :=
  world (Ok "0.5.0") (Ok tt) mode (Ok ["SWC-101"]).

(** The source has no usable version pragma. *)
Definition no_pragma : World string :=
  world (Err (Raised "No pragma")) (Ok tt) mode (Ok []).

(** The job is still pending when the poll loop gives up. *)
Definition pending : World string :=
  world (Ok "0.5.0") (Err (Raised "Timeout")) mode (Ok []).

(** The issues cannot be reduced. *)
Definition broken_report : World string :=
  world (Ok "0.5.0") (Ok tt) mode (Err (Raised "Bad source map")).

(** A [getRequestData] that copies [args.debug] into the request. *)
Definition leaky : World string :=
  world (Ok "0.5.0") (Ok tt)
    (fun a => if debug a then "debug" else "plain") (Ok []).

Definition no_credentials : Env :=
  {| ethAddress := None;
     password := None;
     apiUrl := Some "https://api.mythx.io" |}.

Definition half_credentials : Env :=
  {| ethAddress := Some "0x1111111111111111111111111111111111111111";
     password := None;
     apiUrl := Some "https://api.mythx.io" |}.

Definition args (m f : string) (d : bool) : Args :=
  {| mode := m; format := f; positional := ["token.sol"]; debug := d |}.

Definition quick : Args := args "quick" "json" false.

Definition full : Args := args "full" "text" false.

Definition timeout_error : error := Raised "Timeout".

End Demo.

(** ** More ways to read a trace *)

(** The [{ content: body }] made of an entry of [resolvedSources]. *)
Definition source_content (src : ResolvedSource) : SourceContent :=
  {| content := body src |}.

(** Whether a spinner action sets the spinner going. *)
Definition is_start (a : spinner_action) : bool :=
  match a with
  | Start _ => true
  | _ => false
  end.

Set Implicit Arguments.

Section MoreObservers.

Variable Opaque : Type.

(** The calls go to the collaborator functions in source order, each
    function at most once: [lo] is the least [operation] still allowed. *)
Fixpoint ascending (lo : nat) (t : list (event Opaque)) : bool :=
  match t with
  | [] => true
  | Called c _ :: t' =>
      (lo <=? operation c)%nat && ascending (S (operation c)) t'
  | _ :: t' => ascending lo t'
  end.

(** The spinner action a trace ends on, [a] when it has none. *)
Fixpoint last_spinner (a : option spinner_action) (t : list (event Opaque)) :
    option spinner_action :=
  match t with
  | [] => a
  | Spinner a' :: t' => last_spinner (Some a') t'
  | _ :: t' => last_spinner a t'
  end.

(** Spinner discipline: a start only when the spinner is not started, an
    ending action only when it is, and every call while it is started;
    [started] tells whether the last spinner action was a start. *)
Fixpoint spinner_discipline (started : bool) (t : list (event Opaque)) : bool :=
  match t with
  | [] => true
  | Spinner a :: t' =>
      negb (Bool.eqb started (is_start a)) && spinner_discipline (is_start a) t'
  | Called _ _ :: t' => started && spinner_discipline started t'
  | ConsoleLog _ :: t' => spinner_discipline started t'
  end.

(** The lines that show findings: the two result lines and the dump of
    the raw response body. *)
Definition finding_output (m : message Opaque) : bool :=
  match m with
  | Green _ | Output _ | InspectIssues _ => true
  | _ => false
  end.

End MoreObservers.

Unset Implicit Arguments.

(** The [forEach] of lines 95-97, from any [allSources] so far. *)
Definition fill (resolvedSources : JSObject ResolvedSource)
    (acc : JSObject SourceContent) (files : list string) :
    JSObject SourceContent :=
  fold_left
    (fun acc file =>
       match lookup resolvedSources file with
       | Some src => assign acc file {| content := body src |}
       | None => acc
       end)
    files acc.

(** An entry of [resolvedSources] as the entry of [allSources] it becomes. *)
Definition entry_content (kv : string * ResolvedSource) :
    string * SourceContent :=
  (fst kv, source_content (snd kv)).

(** Whether a spinner action, if any, is a start. *)
Definition started_by (a : option spinner_action) : bool :=
  match a with
  | Some s => is_start s
  | None => false
  end.

(** Inputs for the theorems on the rest of the controller. *)
Module Sample.

(** No file on the command line. *)
Definition no_file : Args :=
  {| mode := "quick"; format := "json"; positional := []; debug := false |}.

Definition credentials : Env :=
  {| ethAddress := Some "0x1111111111111111111111111111111111111111";
     password := Some "secret";
     apiUrl := Some "https://api.mythx.io" |}.

(** An entry file and the file it imports. *)
Definition two_sources : JSObject ResolvedSource :=
  [("/work/token.sol", {| body := "import './math.sol';" |});
   ("/work/math.sol", {| body := "library Math {}" |})].

Definition clean_run : list (event string) * outcome :=
  run Demo.clean Demo.no_credentials Demo.quick.

Definition debug_run : list (event string) * outcome :=
  run Demo.finding Demo.no_credentials (Demo.args "full" "json" true).

Definition pending_run : list (event string) * outcome :=
  run Demo.pending Demo.no_credentials Demo.quick.

Definition token_data : RequestData string :=
  {| payload := "full"; data_sources := None; data_functionHashes := None |}.

Definition token_input : SolcInput string :=
  {| sources :=
       [("/work/token.sol", {| content := "contract Token {}" |})];
     settings := "{}" |}.

Definition token_compiled : CompiledData string :=
  {| contractName := "Token"; functionHashes := "{}"; artifact := "0x6080" |}.

End Sample.

(** * Properties of the controller *)

Lemma includes_In (l : list string) (x : string) :
  includes l x = true <-> In x l.
Proof.
  unfold includes. rewrite existsb_exists. split.
  - intros [y [Hy He]]. apply String.eqb_eq in He. now subst.
  - intros H. exists x. split; [assumption | apply String.eqb_refl].
Qed.

Lemma includes_not_In (l : list string) (x : string) :
  ~ In x l -> includes l x = false.
Proof.
  intros H. destruct (includes l x) eqn:E; [|reflexivity].
  apply includes_In in E. contradiction.
Qed.

(** Every key of an object has a value: the [forEach] that fills
    [allSources] never meets [undefined]. *)
Lemma lookup_keys {V : Type} (o : JSObject V) (k : string) :
  In k (keys o) -> lookup o k <> None.
Proof.
  induction o as [| [k' v] o IH]; cbn; [tauto |].
  intros [H | H]; destruct (String.eqb_spec k' k); try discriminate;
    auto; contradiction.
Qed.

(** ** Facts about traces *)

Section TraceFacts.

Variable Opaque : Type.

Lemma In_calls (t : list (event Opaque)) c r :
  In (Called c r) t <-> In (c, r) (calls t).
Proof.
  induction t as [| ev t IH]; cbn; [tauto |].
  destruct ev; cbn; rewrite <- IH; split; intros H;
    repeat match goal with
           | H : _ \/ _ |- _ => destruct H as [H | H]
           end;
    auto; try discriminate H; inversion H; auto.
Qed.

Lemma In_printed (t : list (event Opaque)) m :
  In (ConsoleLog m) t <-> In m (printed t).
Proof.
  induction t as [| ev t IH]; cbn; [tauto |].
  destruct ev; cbn; rewrite <- IH; split; intros H;
    repeat match goal with
           | H : _ \/ _ |- _ => destruct H as [H | H]
           end;
    auto; try discriminate H; inversion H; auto.
Qed.

Lemma first_throw_split (t : list (event Opaque)) :
  forall pre c e post,
  first_throw t = Some (pre, c, e, post) ->
  t = (pre ++ Called c (Some e) :: post)%list.
Proof.
  induction t as [| ev t IH]; intros pre c e post H; [discriminate H |].
  cbn in H.
  assert (Hrec : match first_throw t with
                 | Some (pre0, c0, e0, post0) => Some (ev :: pre0, c0, e0, post0)
                 | None => None
                 end = Some (pre, c, e, post) ->
                 ev :: t = (pre ++ Called c (Some e) :: post)%list).
  { destruct (first_throw t) as [[[[pre0 c0] e0] post0] |]; [| discriminate].
    intros E. inversion E; subst. cbn. f_equal. apply IH. reflexivity. }
  destruct ev as [a | m | c1 [e1 |]]; auto.
  inversion H; subst. reflexivity.
Qed.

Lemma calls_chain_spec (t : list (event Opaque)) :
  calls_chain t ->
  forall t1 c r t2 c' r',
  t = (t1 ++ Called c r :: t2)%list -> In (Called c' r') t2 -> r = None.
Proof.
  induction t as [| ev t IH]; intros Hc t1 c r t2 c' r' E Hin.
  - destruct t1; discriminate E.
  - destruct t1 as [| ev1 t1]; cbn in E; inversion E; subst; clear E.
    + cbn in Hc. destruct Hc as [[Hr | Hno] _]; [exact Hr |].
      exfalso. exact (Hno c' r' Hin).
    + refine (IH _ t1 c r t2 c' r' eq_refl Hin).
      destruct ev1 as [a | m | c1 r1]; cbn in Hc; tauto.
Qed.

End TraceFacts.

Arguments In_calls {Opaque} t c r.
Arguments In_printed {Opaque} t m.
Arguments first_throw_split {Opaque} t pre c e post.
Arguments calls_chain_spec {Opaque} t.

(** ** Symbolic execution of [run]

    [explore] walks the controller statement by statement: whenever the
    next statement depends on a collaborator's answer, on a flag or on the
    shape of a value, it splits on it.  Each leaf is one complete path,
    with the equations that select it in the context. *)

Ltac unfold_monad :=
  unfold resolve_input, try_catch, bind, invoke, ret, throw, process_exit,
    console_log, isSpinning, spinner_start, spinner_stop, spinner_succeed,
    spinner_fail, spinner_end, emit.

Ltac stuck t :=
  lazymatch t with
  | match ?x with pair _ _ => _ end => stuck x
  | (match ?x with pair _ _ => _ end) _ => stuck x
  | match ?x with Normal _ => _ | Throw _ => _ | Exit _ => _ end => stuck x
  | match ?x with Ok _ => _ | Err _ => _ end => stuck x
  | match ?x with Some _ => _ | None => _ end => stuck x
  | (match ?x with Some _ => _ | None => _ end) _ => stuck x
  | if ?x then _ else _ => stuck x
  | (if ?x then _ else _) _ => stuck x
  | negb ?x => stuck x
  | _ => t
  end.

Ltac reduce :=
  cbn -[append modes formats includes nth_error nth String.eqb rev
        poll_parameters credentials].

Ltac split_on x :=
  lazymatch x with
  | Nat.eqb (length ?l) _ => destruct l
  | credentials _ => destruct x eqn:?
  | poll_parameters _ => destruct x eqn:?
  | _ =>
      let T := type of x in
      lazymatch T with
      | result _ => destruct x eqn:?
      | bool => destruct x eqn:?
      | option _ => destruct x eqn:?
      | _ => is_var x; destruct x
      end
  end.

Ltac exec_step :=
  lazymatch goal with
  | |- ?lhs = _ -> _ => let x := stuck lhs in split_on x
  end; reduce.

Ltac explore :=
  unfold run, analyze; unfold_monad; reduce; repeat exec_step.

(** At a leaf: name the trace and the outcome of the path. *)
Ltac leaf :=
  let E := fresh "E" in
  intros E; apply pair_equal_spec in E; destruct E; subst; cbn [rev app].

(** Split a membership in an explicit list into its cases. *)
Ltac in_cases H :=
  cbn [In] in H;
  repeat (destruct H as [H | H]; [try discriminate H |]);
  try contradiction.

(** The same for a call of an explicit trace. *)
Ltac call_cases H :=
  apply In_calls in H; cbn [calls] in H; in_cases H.

(** Point at a call of an explicit trace. *)
Ltac find_call :=
  apply In_calls; cbn [calls In];
  solve [repeat first [left; reflexivity | right]].

(** Close a path that the assumed answers of the collaborators exclude. *)
Ltac follow_answers :=
  repeat match goal with
         | H : In _ modes |- _ => apply includes_In in H
         | H : In _ formats |- _ => apply includes_In in H
         | H : true = false |- _ => discriminate H
         | H : false = true |- _ => discriminate H
         | H : None = Some _ |- _ => discriminate H
         | H : Err _ = Ok _ |- _ => discriminate H
         | H : Some _ = Some _ |- _ => inversion H; subst; clear H
         | H : Ok _ = Ok _ |- _ => inversion H; subst; clear H
         | H : ?x = _, H' : ?x = _ |- _ => rewrite H in H'
         end.

Section Properties.

Variable Opaque : Type.
Variable w : World Opaque.

(** The two modes the controller accepts. *)
Lemma mode_accepted (args : Args) :
  includes modes (mode args) = true ->
  mode args = "quick" \/ mode args = "full".
Proof.
  intros H. apply includes_In in H. cbn in H. intuition.
Qed.

(** C1. The poll loop [client.awaitAnalysisFinish] is invoked with
    constants fixed by the mode: whenever a run calls it, the initial
    delay and the timeout it passes are 20000 ms and 180000 ms when
    [args.mode] is "quick"; otherwise the mode is "full" and they are
    300000 ms and 2400000 ms.  And a run calls it as soon as the job has
    been submitted. *)
Theorem poll_loop_constants (env : Env) (args : Args)
    (t : list (event Opaque)) (o : outcome) :
  run w env args = (t, o) ->
  (forall c uuid initialDelay timeout r,
     In (Called (AwaitAnalysisFinish c uuid initialDelay timeout) r) t ->
     (mode args = "quick" -> initialDelay = 20000 /\ timeout = 180000) /\
     (mode args <> "quick" ->
      mode args = "full" /\ initialDelay = 300000 /\ timeout = 2400000)) /\
  (forall c data,
     In (Called (SubmitDataForAnalysis c data) None) t ->
     exists uuid initialDelay timeout r,
       In (Called (AwaitAnalysisFinish c uuid initialDelay timeout) r) t).
Proof.
  explore; leaf; split.
  all: try (intros c data H; call_cases H; inversion H; subst; clear H;
            do 4 eexists; find_call).
  all: intros c uuid initialDelay timeout r H; call_cases H.
  all: inversion H; subst; clear H.
  all: match goal with
       | Hm : includes modes _ = true,
         Hp : poll_parameters _ = _ |- _ =>
           apply mode_accepted in Hm;
           unfold poll_parameters in Hp;
           destruct Hm as [Hm | Hm]; rewrite Hm in *; cbn in Hp;
           inversion Hp; subst
       end.
  all: split; intros; try congruence; repeat split; reflexivity.
Qed.

(** The line printed for a mode outside [modes]. *)
Lemma invalid_mode_line :
  Text.invalid_mode = "Invalid analysis mode. Available modes: quick, full.".
Proof. reflexivity. Qed.

(** C9. A run whose mode is neither "quick" nor "full" prints the list of
    available modes and leaves through [process.exit(-1)]; that line is
    its whole trace, so the input file is not read and no toolchain,
    compile or network work is done. *)
Theorem invalid_mode_exits (env : Env) (args : Args) :
  ~ In (mode args) modes ->
  run w env args =
    ([ConsoleLog
        (Line "Invalid analysis mode. Available modes: quick, full.")],
     Exited (-1)) /\
  no_calls (fst (run w env args)).
Proof.
  intros H. apply includes_not_In in H.
  assert (E : run w env args =
              ([ConsoleLog (Line Text.invalid_mode)], Exited (-1))).
  { unfold run, analyze. unfold bind at 1. rewrite H. reflexivity. }
  rewrite invalid_mode_line in E.
  split; [exact E |].
  rewrite E. intros c r Hin. call_cases Hin.
Qed.

(** C2. A run whose output format is none of the six known names ends
    through [process.exit(-1)] without a single collaborator call: the
    input file is not read, no toolchain is acquired, nothing is compiled
    and the service is not contacted.  All it does is print one line, the
    list of modes or the list of formats. *)
Theorem unknown_format_fails_fast (env : Env) (args : Args)
    (t : list (event Opaque)) (o : outcome) :
  ~ In (format args) formats ->
  run w env args = (t, o) ->
  no_calls t /\
  o = Exited (-1) /\
  (t = [ConsoleLog (Line Text.invalid_mode)] \/
   t = [ConsoleLog (Line Text.invalid_format)]).
Proof.
  intros H. apply includes_not_In in H.
  unfold run, analyze. unfold bind at 1.
  destruct (includes modes (mode args)); cbn [negb].
  - unfold bind at 1, ret at 1. unfold bind at 1. rewrite H.
    cbn. intros E. inversion E; subst.
    split; [| split; [reflexivity | right; reflexivity]].
    intros c r Hin. call_cases Hin.
  - cbn. intros E. inversion E; subst.
    split; [| split; [reflexivity | left; reflexivity]].
    intros c r Hin. call_cases Hin.
Qed.

(** C3. When version detection throws, the run prints that error and
    leaves through [process.exit(1)]; the only collaborators called are
    the file read and the version detection itself, so neither the
    toolchain load nor any call to the remote service is made. *)
Theorem version_error_aborts (env : Env) (args : Args)
    (t : list (event Opaque)) (o : outcome) (code : string) (e : error) :
  run w env args = (t, o) ->
  In (Called (GetSolidityVersion code) (Some e)) t ->
  o = Exited 1 /\
  In (ConsoleLog (Red e)) t /\
  (forall c r, In (Called c r) t ->
     (exists file, c = ReadFileSync file) \/ c = GetSolidityVersion code) /\
  (forall c r, In (Called c r) t ->
     loads_toolchain c = false /\ remote_service c = false).
Proof.
  explore; leaf; intros H; call_cases H.
  all: inversion H; subst; clear H.
  all: split; [reflexivity |].
  all: split; [apply In_printed; cbn [printed In]; tauto |].
  all: split; intros c r Hin; call_cases Hin.
  all: inversion Hin; subst; cbn; eauto.
Qed.

(** From [report_after_poll] to the statement about positions. *)
Lemma report_after_poll_spec (t : list (event Opaque)) :
  forall polled, report_after_poll polled t ->
  forall t1 c uuid r t2, t = (t1 ++ Called (GetReport c uuid) r :: t2)%list ->
  In (c, uuid) polled \/
  exists d tm, In (Called (AwaitAnalysisFinish c uuid d tm) None) t1.
Proof.
  induction t as [| ev t IH]; intros polled Hp t1 c uuid r t2 E.
  - destruct t1; discriminate E.
  - destruct t1 as [| ev1 t1]; cbn in E; inversion E; subst; clear E.
    + cbn in Hp. left. tauto.
    + assert (Hstep : forall polled',
                report_after_poll polled' (t1 ++ Called (GetReport c uuid) r :: t2) ->
                (forall x, In x polled' -> In x polled \/
                   exists d tm, ev1 = Called (AwaitAnalysisFinish (fst x) (snd x) d tm) None) ->
                In (c, uuid) polled \/
                exists d tm,
                  In (Called (AwaitAnalysisFinish c uuid d tm) None) (ev1 :: t1)).
      { intros polled' Hp' Hsub.
        destruct (IH polled' Hp' t1 c uuid r t2 eq_refl) as [Hin | (d & tm & Hin)].
        - destruct (Hsub _ Hin) as [Hin' | (d & tm & Hev)]; [left; exact Hin' |].
          right. exists d, tm. left. exact Hev.
        - right. exists d, tm. right. exact Hin. }
      destruct ev1 as [a | m | c1 r1]; cbn in Hp.
      * apply (Hstep polled Hp). intros x Hx. left. exact Hx.
      * apply (Hstep polled Hp). intros x Hx. left. exact Hx.
      * destruct c1; try (apply (Hstep polled Hp); intros x Hx; left; exact Hx).
        -- destruct r1.
           ++ apply (Hstep polled Hp). intros x Hx. left. exact Hx.
           ++ apply (Hstep _ Hp). intros x [Hx | Hx]; [| left; exact Hx].
              subst x. right. eexists. eexists. reflexivity.
        -- destruct Hp as [_ Hp].
           apply (Hstep polled Hp). intros x Hx. left. exact Hx.
Qed.

(** C4. In a run where the poll loop rejects, [client.getReport] is never
    called and the run leaves through [process.exit(1)]; in every run, a
    call to [client.getReport] comes only after a call to
    [client.awaitAnalysisFinish] for the same client and job has
    resolved. *)
Theorem retrieval_only_after_poll (env : Env) (args : Args)
    (t : list (event Opaque)) (o : outcome) :
  run w env args = (t, o) ->
  (forall c uuid d tm e,
     In (Called (AwaitAnalysisFinish c uuid d tm) (Some e)) t ->
     o = Exited 1 /\
     forall c' uuid' r, ~ In (Called (GetReport c' uuid') r) t) /\
  (forall t1 c uuid r t2,
     t = (t1 ++ Called (GetReport c uuid) r :: t2)%list ->
     exists d tm, In (Called (AwaitAnalysisFinish c uuid d tm) None) t1).
Proof.
  intros Hrun. split.
  - revert Hrun. explore; leaf; intros c uuid d tm e' H; call_cases H.
    all: inversion H; subst; clear H.
    all: split; [reflexivity |].
    all: intros c' uuid' r Hin; call_cases Hin.
  - assert (Hp : report_after_poll [] t).
    { revert Hrun. explore; leaf; cbn; tauto. }
    intros t1 c uuid r t2 E.
    destruct (report_after_poll_spec t [] Hp t1 c uuid r t2 E) as [[] | H].
    exact H.
Qed.


(** C6. In a run that completes, [report.formatIssues] returned the list
    of unique issues.  When that list is empty, the one result line
    printed is the green line "No errors/warnings found in" the file
    given on the command line "for contract:" the compiled contract, and
    no formatter is selected or applied; when it is not, the formatter
    selected by [args.format] is applied to that list and the block it
    returns is the one result line printed. *)
Theorem findings_output (env : Env) (args : Args) (t : list (event Opaque)) :
  run w env args = (t, Resolved) ->
  exists data issues uniqueIssues,
    In (Called (FormatIssues data issues) None) t /\
    formatIssues w data issues = Ok uniqueIssues /\
    ((uniqueIssues = [] /\
      (exists file input snap path name cd,
         nth_error (positional args) 0 = Some file /\
         In (Called (GetCompiledContracts input snap path name) None) t /\
         getCompiledContracts w input snap path name = Ok cd /\
         results t =
           [Green ("✔ No errors/warnings found in " ++ file
                     ++ " for contract: " ++ contractName cd)]) /\
      (forall c r, In (Called c r) t -> formatter_call c = false))
     \/
     (uniqueIssues <> [] /\
      exists formatter output,
        getFormatter w (format args) = Ok formatter /\
        formatter uniqueIssues = Ok output /\
        In (Called (GetFormatter (format args)) None) t /\
        In (Called (Formatter uniqueIssues) None) t /\
        results t = [Output output])).
Proof.
  explore; leaf; try discriminate.
  all: do 3 eexists.
  all: (split; [find_call |]).
  all: (split; [eassumption |]).
  1, 3: left; split; [reflexivity |]; split;
    [do 6 eexists; (split; [reflexivity |]); (split; [find_call |]);
     (split; [eassumption |]);
     match goal with
     | H : nth_error _ 0 = Some _ |- _ =>
         rewrite (nth_error_nth _ _ "undefined" H)
     end; reflexivity
    | intros c r Hin; call_cases Hin; inversion Hin; reflexivity].
  all: right; split; [discriminate |]; do 2 eexists.
  all: (split; [reflexivity |]); (split; [eassumption |]).
  all: repeat split; find_call.
Qed.

(** C7, as the code has it.  When a collaborator call throws, the run
    leaves through [process.exit(1)]; the calls before it all returned
    and none of them went to the same collaborator function; after it
    nothing is called and the one thing printed is the thrown error; no
    result line (success line or formatter block) is printed anywhere in
    the run.  The only line showing findings such a run can have printed
    is the dump of the raw response body, and only under [args.debug];
    without [args.debug] the thrown error is all it prints. *)
Theorem stage_error_is_fatal (env : Env) (args : Args)
    (t : list (event Opaque)) (o : outcome) (c : call Opaque) (e : error) :
  run w env args = (t, o) ->
  In (Called c (Some e)) t ->
  o = Exited 1 /\
  (exists pre post,
     t = (pre ++ Called c (Some e) :: post)%list /\
     (forall c' r',
        In (Called c' r') pre -> r' = None /\ same_operation c' c = false) /\
     no_calls post /\
     printed post = [Red e]) /\
  results t = [] /\
  (forall m,
     In (ConsoleLog m) t -> finding_output m = true ->
     debug args = true /\ exists issues, m = InspectIssues issues) /\
  (debug args = false -> printed t = [Red e]).
Proof.
  explore; leaf; intros H; call_cases H.
  all: inversion H; subst; clear H.
  all: split; [reflexivity |].
  all: split;
    [do 2 eexists; (split; [apply first_throw_split; reflexivity |]);
     (split; [| split; [| reflexivity]]);
     intros c' r' Hin; call_cases Hin; inversion Hin; split; reflexivity |].
  all: split; [reflexivity |].
  all: split; [| intros Hd; try discriminate Hd; reflexivity].
  all: intros m Hin Hf; apply In_printed in Hin; cbn [printed] in Hin;
    in_cases Hin; subst m; try discriminate Hf.
  all: split; [reflexivity | eexists; reflexivity].
Qed.

Lemma credentials_missing (env : Env) :
  truthy (ethAddress env) = false \/ truthy (password env) = false ->
  credentials env = (Some trial_address, Some trial_password).
Proof.
  unfold credentials.
  intros [H | H]; rewrite H; [| rewrite andb_false_r]; reflexivity.
Qed.

(** C8. When [ethAddress] or [password] is missing from the environment,
    the controller itself raises no error: it replaces both by the trial
    credentials, the all-zero address and the password "trial"; every
    [client.initialize] it makes carries them.  Whenever the file is read,
    its version detected, the toolchain loaded and the sources resolved
    and compiled, the run calls [client.initialize] with them and, given a
    client, goes on to [client.authenticate]; a run that returns has done
    both; and a run that leaves through [process.exit(1)] does so because
    a collaborator threw. *)
Theorem missing_credentials_use_trial (env : Env) (args : Args)
    (t : list (event Opaque)) (o : outcome) :
  truthy (ethAddress env) = false \/ truthy (password env) = false ->
  run w env args = (t, o) ->
  credentials env =
    (Some "0x0000000000000000000000000000000000000000", Some "trial") /\
  (forall url addr pw r,
     In (Called (Initialize url addr pw) r) t ->
     url = apiUrl env /\
     addr = Some "0x0000000000000000000000000000000000000000" /\
     pw = Some "trial") /\
  (forall input snap file name,
     In (Called (GetCompiledContracts input snap file name) None) t ->
     exists r,
       In (Called
             (Initialize (apiUrl env)
                (Some "0x0000000000000000000000000000000000000000")
                (Some "trial")) r) t) /\
  (forall url addr pw,
     In (Called (Initialize url addr pw) None) t ->
     exists m r,
       initialize w url addr pw = Ok m /\ In (Called (Authenticate m) r) t) /\
  (o = Exited 1 -> exists c e, In (Called c (Some e)) t) /\
  (forall file code version snap fromCache resolved input cd,
     In (mode args) modes ->
     In (format args) formats ->
     nth_error (positional args) 0 = Some file ->
     readFileSync w (path_resolve w (cwd w) file) = Ok code ->
     getSolidityVersion w code = Ok version ->
     loadSolcVersion w (releases w version) = Ok (snap, fromCache) ->
     resolveAllSources w
       {| working_directory :=
            path_dirname w (path_resolve w (cwd w) file);
          contracts_build_directory :=
            path_dirname w (path_resolve w (cwd w) file) |}
       [path_resolve w (cwd w) file] snap = Ok resolved ->
     getSolcInput w (allSources_of resolved (keys resolved)) = Ok input ->
     getCompiledContracts w input snap (path_resolve w (cwd w) file)
       (nth_error (positional args) 1) = Ok cd ->
     exists r,
       In (Called
             (Initialize (apiUrl env)
                (Some "0x0000000000000000000000000000000000000000")
                (Some "trial")) r) t /\
       forall m,
         initialize w (apiUrl env)
           (Some "0x0000000000000000000000000000000000000000")
           (Some "trial") = Ok m ->
         exists r', In (Called (Authenticate m) r') t) /\
  (o = Resolved ->
   exists m,
     In (Called
           (Initialize (apiUrl env)
              (Some "0x0000000000000000000000000000000000000000")
              (Some "trial")) None) t /\
     In (Called (Authenticate m) None) t).
Proof.
  intros Hmiss Hrun.
  assert (Hc : credentials env =
               (Some "0x0000000000000000000000000000000000000000",
                Some "trial"))
    by exact (credentials_missing env Hmiss).
  split; [exact Hc |]. revert Hc. revert Hrun.
  explore; leaf; intros Hc; try (inversion Hc; subst; clear Hc).
  all: split; [intros url addr pw r Hin; call_cases Hin;
               inversion Hin; subst; auto |].
  all: split; [intros input snap file name Hin; call_cases Hin;
               eexists; find_call |].
  all: split; [intros url addr pw Hin; call_cases Hin;
               inversion Hin; subst; do 2 eexists;
               (split; [eassumption |]);
               find_call |].
  all: split; [intros E; try discriminate E; do 2 eexists; find_call |].
  all: split; [| intros E; try discriminate E; eexists; split; find_call].
  all: intros file code version snap fromCache resolved input cd
         Hm Hf Hfile Hread Hver Hload Hres Hin Hcomp.
  all: follow_answers.
  all: eexists; split; [find_call |].
  all: intros m Hi; follow_answers.
  all: eexists; find_call.
Qed.

Lemma poll_parameters_with_debug (args : Args) (b : bool) :
  poll_parameters (with_debug args b) = poll_parameters args.
Proof. reflexivity. Qed.

(** The same for two runs that differ in [args.debug] only: the second
    run is walked along the answers the first one got. *)
Ltac normalise_args :=
  cbn [mode format positional debug with_debug];
  rewrite ?poll_parameters_with_debug.

Ltac replay_step Hreq :=
  first [ match goal with
          | H : ?x = _ |- context [?x] => rewrite H
          end
        | rewrite Hreq ];
  reduce.


End Properties.

(** * The theorems at concrete collaborators *)

Lemma poll_loop_constants_witness :
  In (Called (AwaitAnalysisFinish "client" "job-1" 300000 2400000) None)
    (fst (run Demo.clean Demo.no_credentials Demo.full)) /\
  ((mode Demo.full = "quick" -> 300000 = 20000 /\ 2400000 = 180000) /\
   (mode Demo.full <> "quick" ->
    mode Demo.full = "full" /\ 300000 = 300000 /\ 2400000 = 2400000)).
Proof.
  assert (Hin : In (Called (AwaitAnalysisFinish "client" "job-1" 300000
                              2400000) None)
                  (fst (run Demo.clean Demo.no_credentials Demo.full))).
  { vm_compute. tauto. }
  split; [exact Hin |].
  exact (proj1 (poll_loop_constants string Demo.clean Demo.no_credentials
                  Demo.full _ _ (surjective_pairing _)) _ _ _ _ _ Hin).
Defined.

Lemma unknown_format_fails_fast_witness :
  ~ In (format (Demo.args "quick" "xml" false)) formats /\
  no_calls (fst (run Demo.clean Demo.no_credentials
                   (Demo.args "quick" "xml" false))) /\
  snd (run Demo.clean Demo.no_credentials (Demo.args "quick" "xml" false)) =
    Exited (-1).
Proof.
  assert (H : ~ In (format (Demo.args "quick" "xml" false)) formats).
  { cbn. intuition discriminate. }
  split; [exact H |].
  destruct (unknown_format_fails_fast string Demo.clean Demo.no_credentials
              (Demo.args "quick" "xml" false) _ _ H (surjective_pairing _))
    as (Hno & Ho & _).
  split; [exact Hno | exact Ho].
Defined.

Lemma version_error_aborts_witness :
  In (Called
        (GetSolidityVersion "pragma solidity ^0.5.0; contract Token {}")
        (Some (Raised "No pragma")))
    (fst (run Demo.no_pragma Demo.no_credentials Demo.quick)) /\
  snd (run Demo.no_pragma Demo.no_credentials Demo.quick) = Exited 1.
Proof.
  assert (Hin : In (Called
                      (GetSolidityVersion
                         "pragma solidity ^0.5.0; contract Token {}")
                      (Some (Raised "No pragma")))
                  (fst (run Demo.no_pragma Demo.no_credentials Demo.quick))).
  { vm_compute. tauto. }
  split; [exact Hin |].
  exact (proj1 (version_error_aborts string Demo.no_pragma
                  Demo.no_credentials Demo.quick _ _ _ _
                  (surjective_pairing _) Hin)).
Defined.

Lemma retrieval_only_after_poll_witness :
  In (Called (AwaitAnalysisFinish "client" "job-1" 20000 180000)
        (Some Demo.timeout_error))
    (fst (run Demo.pending Demo.no_credentials Demo.quick)) /\
  snd (run Demo.pending Demo.no_credentials Demo.quick) = Exited 1 /\
  ~ In (Called (GetReport "client" "job-1") None)
      (fst (run Demo.pending Demo.no_credentials Demo.quick)).
Proof.
  assert (Hin : In (Called (AwaitAnalysisFinish "client" "job-1" 20000 180000)
                      (Some Demo.timeout_error))
                  (fst (run Demo.pending Demo.no_credentials Demo.quick))).
  { vm_compute. tauto. }
  split; [exact Hin |].
  destruct (proj1 (retrieval_only_after_poll string Demo.pending
                     Demo.no_credentials Demo.quick _ _
                     (surjective_pairing _)) _ _ _ _ _ Hin) as [Ho Hno].
  split; [exact Ho | apply Hno].
Defined.


Lemma findings_output_witness :
  run Demo.clean Demo.no_credentials Demo.quick =
    (fst (run Demo.clean Demo.no_credentials Demo.quick), Resolved) /\
  results (fst (run Demo.clean Demo.no_credentials Demo.quick)) =
    [Green "✔ No errors/warnings found in token.sol for contract: Token"] /\
  run Demo.finding Demo.no_credentials Demo.quick =
    (fst (run Demo.finding Demo.no_credentials Demo.quick), Resolved) /\
  results (fst (run Demo.finding Demo.no_credentials Demo.quick)) =
    [Output "SWC-101"].
Proof.
  assert (Hclean : run Demo.clean Demo.no_credentials Demo.quick =
                   (fst (run Demo.clean Demo.no_credentials Demo.quick),
                    Resolved)) by reflexivity.
  assert (Hfinding : run Demo.finding Demo.no_credentials Demo.quick =
                     (fst (run Demo.finding Demo.no_credentials Demo.quick),
                      Resolved)) by reflexivity.
  split; [exact Hclean |]. split.
  - destruct (findings_output string Demo.clean Demo.no_credentials
                Demo.quick _ Hclean)
      as (data & issues & uniqueIssues & _ & Hfmt & Hcases).
    cbn in Hfmt. inversion Hfmt; subst uniqueIssues.
    destruct Hcases
      as [(_ & (file & input & snap & path & name & cd & Hfile & _ & Hcd
                & Hres) & _) | (Hne & _)]; [| contradiction Hne; reflexivity].
    cbn in Hfile, Hcd. inversion Hfile; subst file.
    inversion Hcd; subst cd. exact Hres.
  - split; [exact Hfinding |].
    destruct (findings_output string Demo.finding Demo.no_credentials
                Demo.quick _ Hfinding)
      as (data & issues & uniqueIssues & _ & Hfmt & Hcases).
    cbn in Hfmt. inversion Hfmt; subst uniqueIssues.
    destruct Hcases
      as [(Hnil & _) | (_ & formatter & output & Hget & Happ & _ & _ & Hres)];
      [discriminate Hnil |].
    cbn in Hget. inversion Hget; subst formatter.
    cbn in Happ. inversion Happ; subst output. exact Hres.
Defined.

Lemma stage_error_is_fatal_witness :
  In (Called (FormatIssues
                {| payload := "quick";
                   data_sources :=
                     Some [("/work/token.sol",
                            {| content := "contract Token {}" |})];
                   data_functionHashes := Some "{}" |}
                "[SWC-101, SWC-101]")
        (Some (Raised "Bad source map")))
    (fst (run Demo.broken_report Demo.no_credentials Demo.quick)) /\
  snd (run Demo.broken_report Demo.no_credentials Demo.quick) = Exited 1 /\
  results (fst (run Demo.broken_report Demo.no_credentials Demo.quick)) = [] /\
  (debug Demo.quick = false ->
   printed (fst (run Demo.broken_report Demo.no_credentials Demo.quick)) =
     [Red (Raised "Bad source map")]).
Proof.
  assert (Hin : In (Called (FormatIssues
                {| payload := "quick";
                   data_sources :=
                     Some [("/work/token.sol",
                            {| content := "contract Token {}" |})];
                   data_functionHashes := Some "{}" |}
                "[SWC-101, SWC-101]")
        (Some (Raised "Bad source map")))
    (fst (run Demo.broken_report Demo.no_credentials Demo.quick))).
  { vm_compute. tauto. }
  split; [exact Hin |].
  destruct (stage_error_is_fatal string Demo.broken_report
              Demo.no_credentials Demo.quick _ _ _ _
              (surjective_pairing _) Hin) as (Ho & _ & Hres & _ & Hquiet).
  split; [exact Ho |]. split; [exact Hres | exact Hquiet].
Defined.

(** With [args.debug] set, a run whose reduction throws has already
    printed the raw issues: the statement of C7 without the exception for
    the dump fails here. *)
Lemma failed_run_prints_raw_findings :
  let t := fst (run Demo.broken_report Demo.no_credentials
                  (Demo.args "quick" "json" true)) in
  In (Called
        (FormatIssues
           {| payload := "quick";
              data_sources :=
                Some [("/work/token.sol",
                       {| content := "contract Token {}" |})];
              data_functionHashes := Some "{}" |}
           "[SWC-101, SWC-101]")
        (Some (Raised "Bad source map"))) t /\
  In (ConsoleLog (InspectIssues "[SWC-101, SWC-101]")) t /\
  ~ (forall m, In (ConsoleLog m) t -> finding_output m = false).
Proof.
  assert (Hdump : In (ConsoleLog (InspectIssues "[SWC-101, SWC-101]"))
                    (fst (run Demo.broken_report Demo.no_credentials
                            (Demo.args "quick" "json" true)))).
  { vm_compute. tauto. }
  split; [vm_compute; tauto |].
  split; [exact Hdump |].
  intros Hnone. specialize (Hnone _ Hdump). discriminate Hnone.
Qed.

Lemma missing_credentials_use_trial_witness :
  (truthy (ethAddress Demo.half_credentials) = false \/
   truthy (password Demo.half_credentials) = false) /\
  snd (run Demo.clean Demo.half_credentials Demo.quick) = Resolved /\
  exists m,
    In (Called
          (Initialize (Some "https://api.mythx.io")
             (Some "0x0000000000000000000000000000000000000000")
             (Some "trial")) None)
      (fst (run Demo.clean Demo.half_credentials Demo.quick)) /\
    In (Called (Authenticate m) None)
      (fst (run Demo.clean Demo.half_credentials Demo.quick)).
Proof.
  assert (H : truthy (ethAddress Demo.half_credentials) = false \/
              truthy (password Demo.half_credentials) = false).
  { right. reflexivity. }
  assert (Ho : snd (run Demo.clean Demo.half_credentials Demo.quick) =
               Resolved) by reflexivity.
  split; [exact H |]. split; [exact Ho |].
  exact (proj2 (proj2 (proj2 (proj2 (proj2 (proj2
           (missing_credentials_use_trial string Demo.clean
              Demo.half_credentials Demo.quick _ _ H
              (surjective_pairing _))))))) Ho).
Defined.

Lemma invalid_mode_exits_witness :
  ~ In (mode (Demo.args "deep" "json" false)) modes /\
  run Demo.clean Demo.no_credentials (Demo.args "deep" "json" false) =
    ([ConsoleLog
        (Line "Invalid analysis mode. Available modes: quick, full.")],
     Exited (-1)).
Proof.
  assert (H : ~ In (mode (Demo.args "deep" "json" false)) modes).
  { cbn. intuition discriminate. }
  split; [exact H |].
  exact (proj1 (invalid_mode_exits string Demo.clean Demo.no_credentials
                  (Demo.args "deep" "json" false) H)).
Defined.


(** ** Two boundaries of the statements above *)

(** With [args.debug] set, the raw response body is dumped before the
    issues are reduced: a run that fails in the reduction has printed it,
    although it prints no result line. *)
Example raw_response_dump_before_failure :
  let r := run Demo.broken_report Demo.no_credentials
             (Demo.args "quick" "json" true) in
  In (ConsoleLog (InspectIssues "[SWC-101, SWC-101]")) (fst r) /\
  snd r = Exited 1 /\
  results (fst r) = [].
Proof.
  vm_compute. repeat split. tauto.
Qed.

(** The controller hands [args] whole to [client.getRequestData]: a
    [getRequestData] that reads [args.debug] makes the submitted request
    depend on it. *)
Example request_data_may_read_debug :
  ~ request_ignores_debug Demo.leaky /\
  work (fst (run Demo.leaky Demo.no_credentials
               (with_debug Demo.quick false))) <>
    work (fst (run Demo.leaky Demo.no_credentials
                 (with_debug Demo.quick true))).
Proof.
  split.
  - intros H.
    specialize (H {| contractName := ""; functionHashes := "";
                     artifact := "" |} [] "" Demo.quick true).
    discriminate H.
  - vm_compute. intros H. discriminate H.
Qed.

(** * The rest of the controller *)

(** ** The sources handed to the compiler *)

Lemma lookup_assign_same {V : Type} (o : JSObject V) (k : string) (v : V) :
  lookup (assign o k v) k = Some v.
Proof.
  induction o as [| [k' v'] o IH]; cbn.
  - rewrite String.eqb_refl. reflexivity.
  - destruct (String.eqb_spec k' k) as [E | E]; cbn.
    + subst. rewrite String.eqb_refl. reflexivity.
    + destruct (String.eqb_spec k' k); [contradiction | exact IH].
Qed.

Lemma lookup_assign_other {V : Type} (o : JSObject V) (k k' : string) (v : V) :
  k <> k' -> lookup (assign o k v) k' = lookup o k'.
Proof.
  intros Hne. induction o as [| [k0 v0] o IH]; cbn.
  - destruct (String.eqb_spec k k'); [contradiction | reflexivity].
  - destruct (String.eqb_spec k0 k) as [E | E]; cbn.
    + subst. destruct (String.eqb_spec k k'); [contradiction | reflexivity].
    + destruct (String.eqb_spec k0 k'); [reflexivity | exact IH].
Qed.

Lemma lookup_not_key {V : Type} (o : JSObject V) (k : string) :
  ~ In k (keys o) -> lookup o k = None.
Proof.
  induction o as [| [k' v] o IH]; cbn; [reflexivity |].
  intros H. destruct (String.eqb_spec k' k); [tauto |].
  apply IH. tauto.
Qed.

Lemma assign_new_key {V : Type} (o : JSObject V) (k : string) (v : V) :
  ~ In k (keys o) -> assign o k v = (o ++ [(k, v)])%list.
Proof.
  induction o as [| [k' v'] o IH]; cbn; [reflexivity |].
  intros H. destruct (String.eqb_spec k' k); [tauto |].
  rewrite IH by tauto. reflexivity.
Qed.

Lemma fill_lookup (o : JSObject ResolvedSource) (files : list string) :
  (forall file, In file files -> lookup o file <> None) ->
  forall acc k,
  lookup (fill o acc files) k =
    if existsb (String.eqb k) files
    then option_map source_content (lookup o k)
    else lookup acc k.
Proof.
  unfold fill.
  induction files as [| file files IH]; intros Hall acc k; cbn; [reflexivity |].
  rewrite IH by (intros f Hf; apply Hall; right; exact Hf).
  destruct (existsb (String.eqb k) files) eqn:Ein.
  - rewrite orb_true_r. reflexivity.
  - rewrite orb_false_r.
    destruct (lookup o file) as [src |] eqn:El.
    + destruct (String.eqb_spec k file) as [E | E].
      * subst. rewrite lookup_assign_same, El. reflexivity.
      * apply lookup_assign_other. congruence.
    + exfalso. apply (Hall file); [left; reflexivity | exact El].
Qed.

(** X1. For every file of [sourceList], reading [allSources] at that file
    gives [{ content: body }] for the body [resolvedSources] holds
    there. *)
Theorem allSources_lookup (resolvedSources : JSObject ResolvedSource)
    (file : string) :
  In file (keys resolvedSources) ->
  exists src,
    lookup resolvedSources file = Some src /\
    lookup (allSources_of resolvedSources (keys resolvedSources)) file =
      Some {| content := body src |}.
Proof.
  intros Hin.
  destruct (lookup resolvedSources file) as [src |] eqn:El.
  - exists src. split; [reflexivity |].
    change (allSources_of resolvedSources (keys resolvedSources))
      with (fill resolvedSources [] (keys resolvedSources)).
    rewrite fill_lookup by (intros f Hf; apply lookup_keys; exact Hf).
    assert (Ht : existsb (String.eqb file) (keys resolvedSources) = true).
    { apply existsb_exists. exists file. split; [exact Hin |].
      apply String.eqb_refl. }
    rewrite Ht, El. reflexivity.
  - exfalso. exact (lookup_keys resolvedSources file Hin El).
Qed.

Lemma keys_app {V : Type} (o1 o2 : JSObject V) :
  keys (o1 ++ o2)%list = (keys o1 ++ keys o2)%list.
Proof. unfold keys. apply map_app. Qed.

Lemma lookup_app_new {V : Type} (o1 o2 : JSObject V) (k : string) :
  ~ In k (keys o1) -> lookup (o1 ++ o2)%list k = lookup o2 k.
Proof.
  induction o1 as [| [k' v] o1 IH]; cbn; [reflexivity |].
  intros H. destruct (String.eqb_spec k' k); [tauto |]. apply IH. tauto.
Qed.

Lemma fill_distinct (o2 : JSObject ResolvedSource) :
  forall o1,
  NoDup (keys (o1 ++ o2)%list) ->
  fill (o1 ++ o2)%list (map entry_content o1) (keys o2) =
    map entry_content (o1 ++ o2)%list.
Proof.
  induction o2 as [| [k v] o2 IH]; intros o1 Hnd.
  - cbn. rewrite app_nil_r. reflexivity.
  - assert (Hk : ~ In k (keys o1)).
    { rewrite keys_app in Hnd. cbn in Hnd.
      apply NoDup_remove_2 in Hnd. intros H. apply Hnd.
      apply in_or_app. left. exact H. }
    unfold fill. cbn [keys map fst fold_left].
    rewrite (lookup_app_new o1 ((k, v) :: o2) k Hk). cbn [lookup].
    rewrite String.eqb_refl.
    rewrite assign_new_key.
    + specialize (IH (o1 ++ [(k, v)])%list).
      rewrite <- app_assoc in IH. cbn [app] in IH.
      rewrite map_app in IH. cbn [map entry_content fst snd] in IH.
      apply IH. exact Hnd.
    + unfold keys. rewrite map_map. cbn [entry_content fst].
      exact Hk.
Qed.

(** X2. For an object with distinct keys, [allSources] is
    [resolvedSources] entry by entry, each body wrapped as
    [{ content: body }]; its keys are [sourceList], in the same order. *)
Theorem allSources_distinct_keys (resolvedSources : JSObject ResolvedSource) :
  NoDup (keys resolvedSources) ->
  allSources_of resolvedSources (keys resolvedSources) =
    map entry_content resolvedSources /\
  keys (allSources_of resolvedSources (keys resolvedSources)) =
    keys resolvedSources.
Proof.
  intros Hnd.
  assert (E : allSources_of resolvedSources (keys resolvedSources) =
              map entry_content resolvedSources).
  { exact (fill_distinct resolvedSources [] Hnd). }
  split; [exact E |].
  rewrite E. unfold keys. rewrite map_map. reflexivity.
Qed.

(** ** Facts about the new readings *)

Section MoreTraceFacts.

Variable Opaque : Type.

Lemma ascending_weaken (t : list (event Opaque)) :
  forall lo lo', (lo' <= lo)%nat -> ascending lo t = true ->
  ascending lo' t = true.
Proof.
  induction t as [| ev t IH]; intros lo lo' Hle H; [reflexivity |].
  destruct ev as [a | m | c r]; cbn in *; try (eapply IH; eassumption).
  apply andb_true_iff in H. destruct H as [H1 H2].
  apply andb_true_iff. split; [| exact H2].
  apply Nat.leb_le in H1. apply Nat.leb_le.
  apply (Nat.le_trans _ lo); assumption.
Qed.

Lemma ascending_bound (t : list (event Opaque)) :
  forall lo c r, ascending lo t = true -> In (Called c r) t ->
  (lo <= operation c)%nat.
Proof.
  induction t as [| ev t IH]; intros lo c r H Hin; [contradiction |].
  destruct Hin as [E | Hin].
  - subst ev. cbn in H. apply andb_true_iff in H.
    apply Nat.leb_le. tauto.
  - destruct ev as [a | m | c1 r1]; cbn in H; try (eapply IH; eassumption).
    apply andb_true_iff in H. destruct H as [H1 H2].
    apply Nat.leb_le in H1.
    apply (Nat.le_trans _ (S (operation c1)));
      [apply Nat.le_le_succ_r; exact H1 | eapply IH; eassumption].
Qed.

Lemma ascending_spec (t : list (event Opaque)) :
  forall lo, ascending lo t = true ->
  forall t1 c r t2 c' r',
  t = (t1 ++ Called c r :: t2)%list -> In (Called c' r') t2 ->
  (operation c < operation c')%nat.
Proof.
  induction t as [| ev t IH]; intros lo H t1 c r t2 c' r' E Hin.
  - destruct t1; discriminate E.
  - destruct t1 as [| ev1 t1]; cbn in E; inversion E; subst; clear E.
    + cbn in H. apply andb_true_iff in H. destruct H as [_ H].
      exact (ascending_bound t2 _ c' r' H Hin).
    + destruct ev1 as [a | m | c1 r1]; cbn in H.
      * exact (IH lo H t1 c r t2 c' r' eq_refl Hin).
      * exact (IH lo H t1 c r t2 c' r' eq_refl Hin).
      * apply andb_true_iff in H. destruct H as [_ H].
        exact (IH _ H t1 c r t2 c' r' eq_refl Hin).
Qed.

Lemma last_spinner_app (t1 t2 : list (event Opaque)) :
  forall a, last_spinner a (t1 ++ t2) = last_spinner (last_spinner a t1) t2.
Proof.
  induction t1 as [| ev t1 IH]; intros a; [reflexivity |].
  destruct ev; cbn; apply IH.
Qed.

Lemma spinner_discipline_spec (t : list (event Opaque)) :
  forall a, spinner_discipline (started_by a) t = true ->
  (forall t1 c r t2,
     t = (t1 ++ Called c r :: t2)%list ->
     exists text, last_spinner a t1 = Some (Start text)) /\
  (forall t1 s t2,
     t = (t1 ++ Spinner s :: t2)%list ->
     is_start s = negb (started_by (last_spinner a t1))).
Proof.
  induction t as [| ev t IH]; intros a H.
  - split; [intros t1 c r t2 E | intros t1 s t2 E];
      destruct t1; discriminate E.
  - assert (Hnext : forall a',
              spinner_discipline (started_by a') t = true ->
              (forall t1, last_spinner a (ev :: t1) = last_spinner a' t1) ->
              (forall t1 c r t2,
                 t = (t1 ++ Called c r :: t2)%list ->
                 exists text, last_spinner a (ev :: t1) = Some (Start text)) /\
              (forall t1 s t2,
                 t = (t1 ++ Spinner s :: t2)%list ->
                 is_start s = negb (started_by (last_spinner a (ev :: t1))))).
    { intros a' H' Hl. destruct (IH a' H') as [IH1 IH2]. split.
      - intros t1 c r t2 E. rewrite Hl. eapply IH1. exact E.
      - intros t1 s t2 E. rewrite Hl. eapply IH2. exact E. }
    destruct ev as [s0 | m | c0 r0]; cbn in H.
    + apply andb_true_iff in H. destruct H as [H0 H].
      destruct (Hnext (Some s0) H (fun _ => eq_refl)) as [N1 N2].
      split.
      * intros [| ev1 t1] c r t2 E; cbn in E; inversion E; subst.
        eapply N1. reflexivity.
      * intros [| ev1 t1] s t2 E; cbn in E; inversion E; subst.
        -- cbn. destruct (started_by a), (is_start s); cbn in H0;
             try discriminate H0; reflexivity.
        -- eapply N2. reflexivity.
    + destruct (Hnext a H (fun _ => eq_refl)) as [N1 N2].
      split.
      * intros [| ev1 t1] c r t2 E; cbn in E; inversion E; subst.
        eapply N1. reflexivity.
      * intros [| ev1 t1] s t2 E; cbn in E; inversion E; subst.
        eapply N2. reflexivity.
    + apply andb_true_iff in H. destruct H as [H0 H].
      destruct (Hnext a H (fun _ => eq_refl)) as [N1 N2].
      split.
      * intros [| ev1 t1] c r t2 E; cbn in E; inversion E; subst.
        -- cbn. destruct a as [[text | | text |] |]; cbn in H0;
             try discriminate H0. exists text. reflexivity.
        -- eapply N1. reflexivity.
      * intros [| ev1 t1] s t2 E; cbn in E; inversion E; subst.
        eapply N2. reflexivity.
Qed.

End MoreTraceFacts.

Lemma nth_error_0_None {A : Type} (l : list A) :
  nth_error l 0 = None -> l = [].
Proof. destruct l; [reflexivity | discriminate]. Qed.

Lemma includes_false (l : list string) (x : string) :
  includes l x = false <-> ~ In x l.
Proof.
  split.
  - intros H Hin. apply includes_In in Hin. congruence.
  - apply includes_not_In.
Qed.

Section MoreProperties.

Variable Opaque : Type.
Variable w : World Opaque.

(** X3. With a valid mode and format but no file on the command line,
    [path.resolve] throws outside the [try]: the call rejects with that
    [TypeError], nothing is printed, the spinner is never started and
    [process.exit] is not reached. *)
Theorem missing_file_argument (env : Env) (args : Args) :
  In (mode args) modes ->
  In (format args) formats ->
  positional args = [] ->
  run w env args = ([], Rejected (InvalidArgType "path")).
Proof.
  intros Hm Hf Hp.
  apply includes_In in Hm. apply includes_In in Hf.
  unfold run, analyze. unfold bind at 1. rewrite Hm. cbn [negb].
  unfold ret at 1. unfold bind at 1. rewrite Hf. cbn [negb].
  unfold ret at 1. unfold bind at 1. unfold resolve_input.
  rewrite Hp. reflexivity.
Qed.

(** X4. How a run ends: through [process.exit(-1)] exactly when the
    mode or the format is not accepted; through [process.exit(1)] exactly
    when a collaborator call threw; by rejecting only for a missing file
    argument, before anything happened; and in no other way than these or
    by returning. *)
Theorem run_outcomes (env : Env) (args : Args)
    (t : list (event Opaque)) (o : outcome) :
  run w env args = (t, o) ->
  (o = Exited (-1) <->
   ~ In (mode args) modes \/ ~ In (format args) formats) /\
  (o = Exited 1 <-> exists c e, In (Called c (Some e)) t) /\
  (forall e, o = Rejected e ->
     e = InvalidArgType "path" /\ positional args = [] /\ t = []) /\
  (o = Resolved \/ o = Exited 1 \/ o = Exited (-1) \/
   o = Rejected (InvalidArgType "path")).
Proof.
  explore; leaf.
  all: repeat match goal with
              | H : includes _ _ = true |- _ => apply includes_In in H
              | H : includes _ _ = false |- _ => apply includes_false in H
              | H : nth_error _ 0 = None |- _ => apply nth_error_0_None in H
              end.
  all: split; [split; [intros E; try discriminate E; tauto
                      | intros [? | ?]; (reflexivity || contradiction)] |].
  all: split; [split; [intros E; try discriminate E;
                       do 2 eexists; find_call
                      | intros (c' & e' & Hin); try reflexivity;
                        call_cases Hin] |].
  all: split; [intros e'' E; try discriminate E; inversion E; auto |].
  all: tauto.
Qed.

(** X5. The collaborator functions are called in the order of the
    source, each at most once in a run: of two calls, the later one goes
    to a function further down the pipeline. *)
Theorem calls_in_source_order (env : Env) (args : Args)
    (t : list (event Opaque)) (o : outcome) :
  run w env args = (t, o) ->
  forall t1 c r t2 c' r',
  t = (t1 ++ Called c r :: t2)%list -> In (Called c' r') t2 ->
  (operation c < operation c')%nat.
Proof.
  intros Hrun.
  apply (ascending_spec Opaque t 0%nat).
  revert Hrun. explore; leaf; reflexivity.
Qed.

(** X6. Every collaborator call is made with the spinner started; the
    spinner is started only when it is not, and stopped, succeeded or
    failed only when it is; and a run that returns has stopped it. *)
Theorem spinner_runs_during_calls (env : Env) (args : Args)
    (t : list (event Opaque)) (o : outcome) :
  run w env args = (t, o) ->
  (forall t1 c r t2,
     t = (t1 ++ Called c r :: t2)%list ->
     exists text, last_spinner None t1 = Some (Start text)) /\
  (forall t1 s t2,
     t = (t1 ++ Spinner s :: t2)%list ->
     is_start s = negb (started_by (last_spinner None t1))) /\
  (o = Resolved -> last_spinner None t = Some Stop).
Proof.
  intros Hrun.
  assert (H : spinner_discipline false t = true /\
              (o = Resolved -> last_spinner None t = Some Stop)).
  { revert Hrun. explore; leaf; (split; [reflexivity |]).
    all: intros E; try discriminate E; reflexivity. }
  destruct H as [H Hlast].
  destruct (spinner_discipline_spec Opaque t None H) as [H1 H2].
  split; [exact H1 | split; [exact H2 | exact Hlast]].
Qed.

End MoreProperties.

(** Split a printed line of an explicit trace into its cases. *)
Ltac print_cases H :=
  apply In_printed in H; cbn [printed] in H; in_cases H.

(** Point at a printed line of an explicit trace. *)
Ltac find_print :=
  apply In_printed; cbn [printed In];
  solve [repeat first [left; reflexivity | right]].

(** At a leaf, keeping the trace as the reverse of the log. *)
Ltac leaf_rev :=
  let E := fresh "E" in
  intros E; apply pair_equal_spec in E; destruct E; subst.

Section DataFlow.

Variable Opaque : Type.
Variable w : World Opaque.

(** X7. Without [args.debug] a run prints at most one line, as the last
    thing it does: the validation message when it exits with -1, the
    error when it exits with 1, the success line or the formatter's block
    when it returns; it prints nothing only when it rejects for a missing
    file argument. *)
Theorem one_line_without_debug (env : Env) (args : Args)
    (t : list (event Opaque)) (o : outcome) :
  run w env args = (t, o) ->
  debug args = false ->
  (t = [] /\ o = Rejected (InvalidArgType "path")) \/
  (exists pre m,
     t = (pre ++ [ConsoleLog m])%list /\
     printed pre = [] /\
     match m with
     | Line _ => o = Exited (-1)
     | Red _ => o = Exited 1
     | Green _ | Output _ => o = Resolved
     | InspectData _ | InspectIssues _ => False
     end).
Proof.
  explore; leaf_rev; intros Hd; try discriminate Hd.
  all: try (left; split; reflexivity).
  all: right; do 2 eexists; split; [cbn [rev]; reflexivity |].
  all: split; reflexivity.
Qed.

(** X8. The bodies are dumped only under [args.debug], and they are the
    real ones: a dumped request is the data handed to
    [client.submitDataForAnalysis], a dumped response is what
    [client.getReport] returned and [report.formatIssues] is given; and
    under [args.debug] every submitted request and every reduced response
    has been dumped. *)
Theorem debug_dumps_the_bodies (env : Env) (args : Args)
    (t : list (event Opaque)) (o : outcome) :
  run w env args = (t, o) ->
  (forall d,
     In (ConsoleLog (InspectData d)) t ->
     debug args = true /\
     exists c r, In (Called (SubmitDataForAnalysis c d) r) t) /\
  (forall i,
     In (ConsoleLog (InspectIssues i)) t ->
     debug args = true /\
     exists c uuid data r,
       In (Called (GetReport c uuid) None) t /\
       getReport w c uuid = Ok i /\
       In (Called (FormatIssues data i) r) t) /\
  (debug args = true ->
   (forall c d r,
      In (Called (SubmitDataForAnalysis c d) r) t ->
      In (ConsoleLog (InspectData d)) t) /\
   (forall data i r,
      In (Called (FormatIssues data i) r) t ->
      In (ConsoleLog (InspectIssues i)) t)).
Proof.
  explore; leaf.
  all: split; [intros d Hin; print_cases Hin; inversion Hin; subst;
               (split; [reflexivity |]); do 2 eexists; find_call |].
  all: split; [intros iss Hin; print_cases Hin; inversion Hin; subst;
               (split; [reflexivity |]); do 4 eexists;
               (split; [find_call |]); (split; [eassumption |]); find_call |].
  all: intros Hd; try discriminate Hd.
  all: split; [intros c d r Hin | intros data iss r Hin]; call_cases Hin.
  all: inversion Hin; subst; find_print.
Qed.

(** X9. What [compiler.getCompiledContracts] is given: the file is
    [args._[0]] resolved against the working directory, the contract name
    is [args._[1]], the snapshot is the one [compiler.loadSolcVersion]
    returned for the release of the version detected in that file's text,
    and the input is built from the sources resolved from that file, in
    its directory, with that snapshot. *)
Theorem compile_uses_detected_toolchain (env : Env) (args : Args)
    (t : list (event Opaque)) (o : outcome) :
  run w env args = (t, o) ->
  forall input snap file name r,
  In (Called (GetCompiledContracts input snap file name) r) t ->
  exists arg code version fromCache resolved,
    nth_error (positional args) 0 = Some arg /\
    file = path_resolve w (cwd w) arg /\
    name = nth_error (positional args) 1 /\
    readFileSync w file = Ok code /\
    getSolidityVersion w code = Ok version /\
    loadSolcVersion w (releases w version) = Ok (snap, fromCache) /\
    resolveAllSources w
      {| working_directory := path_dirname w file;
         contracts_build_directory := path_dirname w file |}
      [file] snap = Ok resolved /\
    getSolcInput w (allSources_of resolved (keys resolved)) = Ok input.
Proof.
  explore; leaf; intros input snap file name r Hin; call_cases Hin.
  all: inversion Hin; subst; clear Hin.
  all: do 5 eexists; repeat split; first [reflexivity | eassumption].
Qed.

(** X10. What [client.getRequestData] is given: [args] itself, the data
    compiled from the same file, and as source list the keys of the
    resolved sources the compiler input was built from. *)
Theorem request_follows_the_compilation (env : Env) (args : Args)
    (t : list (event Opaque)) (o : outcome) :
  run w env args = (t, o) ->
  forall cd sourceList file a r,
  In (Called (GetRequestData cd sourceList file a) r) t ->
  a = args /\
  exists input snap name resolved,
    In (Called (GetCompiledContracts input snap file name) None) t /\
    getCompiledContracts w input snap file name = Ok cd /\
    resolveAllSources w
      {| working_directory := path_dirname w file;
         contracts_build_directory := path_dirname w file |}
      [file] snap = Ok resolved /\
    sourceList = keys resolved /\
    getSolcInput w (allSources_of resolved sourceList) = Ok input.
Proof.
  explore; leaf; intros cd sourceList file args' r Hin; call_cases Hin.
  all: inversion Hin; subst; clear Hin.
  all: split; [reflexivity |].
  all: do 4 eexists; split; [find_call |].
  all: repeat split; first [eassumption | reflexivity].
Qed.

(** X11. The job that is polled and whose report is fetched is the one
    submitted: both calls carry the client and the UUID of a submission
    that returned; and what is submitted is the data
    [client.getRequestData] returned, through the client
    [client.initialize] returned and [client.authenticate] accepted. *)
Theorem poll_and_report_follow_the_job (env : Env) (args : Args)
    (t : list (event Opaque)) (o : outcome) :
  run w env args = (t, o) ->
  (forall c data r,
     In (Called (SubmitDataForAnalysis c data) r) t ->
     initialize w (apiUrl env) (fst (credentials env))
       (snd (credentials env)) = Ok c /\
     In (Called (Authenticate c) None) t /\
     exists cd sourceList file,
       getRequestData w cd sourceList file args = Ok data) /\
  (forall c uuid initialDelay timeout r,
     In (Called (AwaitAnalysisFinish c uuid initialDelay timeout) r) t ->
     exists data,
       In (Called (SubmitDataForAnalysis c data) None) t /\
       submitDataForAnalysis w c data = Ok uuid) /\
  (forall c uuid r,
     In (Called (GetReport c uuid) r) t ->
     exists data,
       In (Called (SubmitDataForAnalysis c data) None) t /\
       submitDataForAnalysis w c data = Ok uuid).
Proof.
  explore; leaf.
  all: split; [intros c data r Hin; call_cases Hin; inversion Hin; subst;
               (split; [first [eassumption | reflexivity] |]);
               (split; [find_call |]);
               do 3 eexists; eassumption |].
  all: split; [intros c uuid initialDelay timeout r Hin
              | intros c uuid r Hin]; call_cases Hin.
  all: inversion Hin; subst; eexists; split; [find_call | eassumption].
Qed.

(** X12. What [report.formatIssues] is given: the issues
    [client.getReport] returned for the submitted job, and the submitted
    data with its [sources] set to those of the compiler input and its
    [functionHashes] to those of the compiled contract. *)
Theorem issues_reduced_against_compiler_input (env : Env) (args : Args)
    (t : list (event Opaque)) (o : outcome) :
  run w env args = (t, o) ->
  forall data issues r,
  In (Called (FormatIssues data issues) r) t ->
  exists input snap file name cd c d uuid,
    In (Called (GetCompiledContracts input snap file name) None) t /\
    getCompiledContracts w input snap file name = Ok cd /\
    In (Called (SubmitDataForAnalysis c d) None) t /\
    submitDataForAnalysis w c d = Ok uuid /\
    getReport w c uuid = Ok issues /\
    data = {| payload := payload d;
              data_sources := Some (sources input);
              data_functionHashes := Some (functionHashes cd) |}.
Proof.
  explore; leaf; intros data issues r Hin; call_cases Hin.
  all: inversion Hin; subst; clear Hin.
  all: do 8 eexists.
  all: split; [find_call |]; split; [eassumption |].
  all: split; [find_call |]; split; [eassumption |].
  all: split; [eassumption | reflexivity].
Qed.

(** X13. When both [ethAddress] and [password] are set, every
    [client.initialize] carries them unchanged, with [apiUrl]. *)
Theorem supplied_credentials_are_used (env : Env) (args : Args)
    (t : list (event Opaque)) (o : outcome) :
  truthy (ethAddress env) = true ->
  truthy (password env) = true ->
  run w env args = (t, o) ->
  forall url addr pw r,
  In (Called (Initialize url addr pw) r) t ->
  url = apiUrl env /\ addr = ethAddress env /\ pw = password env.
Proof.
  intros Ha Hp Hrun.
  assert (Hc : credentials env = (ethAddress env, password env)).
  { unfold credentials. rewrite Ha, Hp. reflexivity. }
  revert Hc. revert Hrun.
  explore; leaf; intros Hc url addr pw r Hin; call_cases Hin.
  all: inversion Hin; subst; inversion Hc; subst; auto.
Qed.

(** X14. The green success line is printed only by a run that returns,
    and it names [args._[0]] as given on the command line and the name of
    the compiled contract. *)
Theorem success_line_names_file_and_contract (env : Env) (args : Args)
    (t : list (event Opaque)) (o : outcome) :
  run w env args = (t, o) ->
  forall s,
  In (ConsoleLog (Green s)) t ->
  o = Resolved /\
  exists arg input snap file name cd,
    nth_error (positional args) 0 = Some arg /\
    In (Called (GetCompiledContracts input snap file name) None) t /\
    getCompiledContracts w input snap file name = Ok cd /\
    s = Text.no_issues arg (contractName cd).
Proof.
  explore; leaf; intros s' Hin; print_cases Hin.
  all: inversion Hin; subst; clear Hin.
  all: split; [reflexivity |].
  all: do 6 eexists; split; [reflexivity |].
  all: split; [find_call |]; split; [eassumption |].
  all: match goal with
       | H : nth_error _ 0 = Some _ |- _ =>
           rewrite (nth_error_nth _ _ "undefined" H)
       end; reflexivity.
Qed.

End DataFlow.

(** ** The theorems above at concrete collaborators *)

Lemma missing_file_argument_witness :
  In (mode Sample.no_file) modes /\
  In (format Sample.no_file) formats /\
  positional Sample.no_file = [] /\
  run Demo.clean Demo.no_credentials Sample.no_file =
    ([], Rejected (InvalidArgType "path")).
Proof.
  assert (Hm : In (mode Sample.no_file) modes) by (cbn; tauto).
  assert (Hf : In (format Sample.no_file) formats)
    by (cbn; repeat first [left; reflexivity | right]).
  assert (Hp : positional Sample.no_file = []) by reflexivity.
  split; [exact Hm |]. split; [exact Hf |]. split; [exact Hp |].
  exact (missing_file_argument string Demo.clean Demo.no_credentials
           Sample.no_file Hm Hf Hp).
Defined.

Lemma run_outcomes_witness :
  snd Sample.pending_run = Exited 1 /\
  exists c e, In (Called c (Some e)) (fst Sample.pending_run).
Proof.
  assert (Ho : snd Sample.pending_run = Exited 1) by reflexivity.
  split; [exact Ho |].
  exact (proj1 (proj1 (proj2 (run_outcomes string Demo.pending
                                Demo.no_credentials Demo.quick _ _
                                (surjective_pairing _)))) Ho).
Defined.

Lemma calls_in_source_order_witness :
  In (Called (GetReport "client" "job-1") None)
    (skipn 2 (fst Sample.clean_run)) /\
  (operation (@ReadFileSync string "/work/token.sol") <
   operation (GetReport "client" "job-1"))%nat.
Proof.
  assert (Hin : In (Called (GetReport "client" "job-1") None)
                  (skipn 2 (fst Sample.clean_run))).
  { vm_compute. tauto. }
  split; [exact Hin |].
  exact (calls_in_source_order string Demo.clean Demo.no_credentials
           Demo.quick _ _ (surjective_pairing _)
           (firstn 1 (fst Sample.clean_run))
           (ReadFileSync "/work/token.sol") None
           (skipn 2 (fst Sample.clean_run)) _ _ eq_refl Hin).
Defined.

Lemma spinner_runs_during_calls_witness :
  snd Sample.clean_run = Resolved /\
  last_spinner None (fst Sample.clean_run) = Some Stop.
Proof.
  assert (Ho : snd Sample.clean_run = Resolved) by reflexivity.
  split; [exact Ho |].
  exact (proj2 (proj2 (spinner_runs_during_calls string Demo.clean
                         Demo.no_credentials Demo.quick _ _
                         (surjective_pairing _))) Ho).
Defined.

Lemma one_line_without_debug_witness :
  debug Demo.quick = false /\
  ((fst Sample.clean_run = [] /\
    snd Sample.clean_run = Rejected (InvalidArgType "path")) \/
   (exists pre m,
      fst Sample.clean_run = (pre ++ [ConsoleLog m])%list /\
      printed pre = [] /\
      match m with
      | Line _ => snd Sample.clean_run = Exited (-1)
      | Red _ => snd Sample.clean_run = Exited 1
      | Green _ | Output _ => snd Sample.clean_run = Resolved
      | InspectData _ | InspectIssues _ => False
      end)).
Proof.
  assert (Hd : debug Demo.quick = false) by reflexivity.
  split; [exact Hd |].
  exact (one_line_without_debug string Demo.clean Demo.no_credentials
           Demo.quick _ _ (surjective_pairing _) Hd).
Defined.

Lemma debug_dumps_the_bodies_witness :
  In (ConsoleLog (InspectData Sample.token_data)) (fst Sample.debug_run) /\
  exists c r,
    In (Called (SubmitDataForAnalysis c Sample.token_data) r)
      (fst Sample.debug_run).
Proof.
  assert (Hin : In (ConsoleLog (InspectData Sample.token_data))
                  (fst Sample.debug_run)).
  { vm_compute. tauto. }
  split; [exact Hin |].
  exact (proj2 (proj1 (debug_dumps_the_bodies string Demo.finding
                         Demo.no_credentials (Demo.args "full" "json" true)
                         _ _ (surjective_pairing _)) _ Hin)).
Defined.

Lemma compile_uses_detected_toolchain_witness :
  In (Called (GetCompiledContracts Sample.token_input "snapshot"
                "/work/token.sol" None) None)
    (fst Sample.clean_run) /\
  exists version fromCache,
    loadSolcVersion Demo.clean (releases Demo.clean version) =
      Ok ("snapshot", fromCache).
Proof.
  assert (Hin : In (Called (GetCompiledContracts Sample.token_input
                              "snapshot" "/work/token.sol" None) None)
                  (fst Sample.clean_run)).
  { vm_compute. tauto. }
  split; [exact Hin |].
  destruct (compile_uses_detected_toolchain string Demo.clean
              Demo.no_credentials Demo.quick _ _ (surjective_pairing _)
              _ _ _ _ _ Hin)
    as (arg & code & version & fromCache & resolved & H).
  exists version, fromCache. apply H.
Defined.

Lemma request_follows_the_compilation_witness :
  In (Called (GetRequestData Sample.token_compiled ["/work/token.sol"]
                "/work/token.sol" Demo.quick) None)
    (fst Sample.clean_run) /\
  exists resolved : JSObject ResolvedSource,
    ["/work/token.sol"] = keys resolved.
Proof.
  assert (Hin : In (Called (GetRequestData Sample.token_compiled
                              ["/work/token.sol"] "/work/token.sol"
                              Demo.quick) None)
                  (fst Sample.clean_run)).
  { vm_compute. tauto. }
  split; [exact Hin |].
  destruct (request_follows_the_compilation string Demo.clean
              Demo.no_credentials Demo.quick _ _ (surjective_pairing _)
              _ _ _ _ _ Hin)
    as (_ & input & snap & name & resolved & H).
  exists resolved. apply H.
Defined.

Lemma poll_and_report_follow_the_job_witness :
  In (Called (GetReport "client" "job-1") None) (fst Sample.clean_run) /\
  exists data,
    In (Called (SubmitDataForAnalysis "client" data) None)
      (fst Sample.clean_run) /\
    submitDataForAnalysis Demo.clean "client" data = Ok "job-1".
Proof.
  assert (Hin : In (Called (GetReport "client" "job-1") None)
                  (fst Sample.clean_run)).
  { vm_compute. tauto. }
  split; [exact Hin |].
  exact (proj2 (proj2 (poll_and_report_follow_the_job string Demo.clean
                         Demo.no_credentials Demo.quick _ _
                         (surjective_pairing _))) _ _ _ Hin).
Defined.

Lemma issues_reduced_against_compiler_input_witness :
  In (Called (FormatIssues
                {| payload := "quick";
                   data_sources := Some (sources Sample.token_input);
                   data_functionHashes := Some "{}" |}
                "[SWC-101, SWC-101]") None)
    (fst Sample.clean_run) /\
  exists c uuid,
    getReport Demo.clean c uuid = Ok "[SWC-101, SWC-101]".
Proof.
  assert (Hin : In (Called (FormatIssues
                {| payload := "quick";
                   data_sources := Some (sources Sample.token_input);
                   data_functionHashes := Some "{}" |}
                "[SWC-101, SWC-101]") None)
    (fst Sample.clean_run)).
  { vm_compute. tauto. }
  split; [exact Hin |].
  destruct (issues_reduced_against_compiler_input string Demo.clean
              Demo.no_credentials Demo.quick _ _ (surjective_pairing _)
              _ _ _ Hin)
    as (input & snap & file & name & cd & c & d & uuid & H).
  exists c, uuid. apply H.
Defined.

Lemma supplied_credentials_are_used_witness :
  truthy (ethAddress Sample.credentials) = true /\
  truthy (password Sample.credentials) = true /\
  In (Called (Initialize (Some "https://api.mythx.io")
                (Some "0x1111111111111111111111111111111111111111")
                (Some "secret")) None)
    (fst (run Demo.clean Sample.credentials Demo.quick)) /\
  Some "secret" = password Sample.credentials.
Proof.
  assert (Ha : truthy (ethAddress Sample.credentials) = true) by reflexivity.
  assert (Hp : truthy (password Sample.credentials) = true) by reflexivity.
  assert (Hin : In (Called (Initialize (Some "https://api.mythx.io")
                (Some "0x1111111111111111111111111111111111111111")
                (Some "secret")) None)
    (fst (run Demo.clean Sample.credentials Demo.quick))).
  { vm_compute. tauto. }
  split; [exact Ha |]. split; [exact Hp |]. split; [exact Hin |].
  exact (proj2 (proj2 (supplied_credentials_are_used string Demo.clean
                         Sample.credentials Demo.quick _ _ Ha Hp
                         (surjective_pairing _) _ _ _ _ Hin))).
Defined.

Lemma success_line_names_file_and_contract_witness :
  In (ConsoleLog (Green (Text.no_issues "token.sol" "Token")))
    (fst Sample.clean_run) /\
  snd Sample.clean_run = Resolved.
Proof.
  assert (Hin : In (ConsoleLog (Green (Text.no_issues "token.sol" "Token")))
                  (fst Sample.clean_run)).
  { vm_compute. tauto. }
  split; [exact Hin |].
  exact (proj1 (success_line_names_file_and_contract string Demo.clean
                  Demo.no_credentials Demo.quick _ _
                  (surjective_pairing _) _ Hin)).
Defined.

Lemma allSources_lookup_witness :
  In "/work/math.sol" (keys Sample.two_sources) /\
  exists src,
    lookup Sample.two_sources "/work/math.sol" = Some src /\
    lookup (allSources_of Sample.two_sources (keys Sample.two_sources))
      "/work/math.sol" = Some {| content := body src |}.
Proof.
  assert (Hin : In "/work/math.sol" (keys Sample.two_sources)).
  { cbn. tauto. }
  split; [exact Hin |].
  exact (allSources_lookup Sample.two_sources "/work/math.sol" Hin).
Defined.

Lemma allSources_distinct_keys_witness :
  NoDup (keys Sample.two_sources) /\
  keys (allSources_of Sample.two_sources (keys Sample.two_sources)) =
    ["/work/token.sol"; "/work/math.sol"].
Proof.
  assert (Hnd : NoDup (keys Sample.two_sources)).
  { cbn. repeat constructor; cbn; intuition discriminate. }
  split; [exact Hnd |].
  exact (proj2 (allSources_distinct_keys Sample.two_sources Hnd)).
Defined.
